(* ===================================================================== *)
(* Shipment lifecycle: the worker (run_worker.py) and the HTTP layer     *)
(* (run_api.py), embedded over finite maps.                              *)
(*                                                                       *)
(*   - a Python dict with string keys is a [gmap string _];              *)
(*   - shipments.json is a value of type [file]: absent, unparsable, or  *)
(*     holding a mapping from shipment id to record;                     *)
(*   - an activity is a function from the file to the new file and       *)
(*     either a return value or the exception it raised;                 *)
(*   - the workflow coroutine is a finite tree of requests (activity,    *)
(*     timer, wait on a condition, log line, read of [self]) run by an   *)
(*     interpreter that also delivers the resolution signals.            *)
(* ===================================================================== *)

From Stdlib Require Import ZArith String List.
From stdpp Require Import base option list strings gmap fin_maps pretty.

Open Scope string_scope.
Open Scope list_scope.

(* --------------------------------------------------------------------- *)
(* Python values and exceptions                                          *)
(* --------------------------------------------------------------------- *)

(** The values a shipment record holds.  [create_shipment] fills a record
    with [str], [int] and [None] fields only; [bool] is kept because it
    is a JSON scalar too.  Floats and nested containers do not occur. *)
Inductive pyval : Type :=
| PNone
| PBool (b : bool)
| PInt (z : Z)
| PStr (s : string).

#[global] Instance pyval_eq_dec : EqDecision pyval.
Proof. solve_decision. Defined.

Abbreviation dict := (gmap string pyval).

(** [str(v)], which is what an f-string placeholder [{v}] expands to. *)
Definition py_str (v : pyval) : string :=
  match v with
  | PNone => "None"
  | PBool true => "True"
  | PBool false => "False"
  | PInt z => pretty z
  | PStr s => s
  end.

(** The key under which [json.dump] writes a dict key: strings as they
    are, the other scalars in their JSON spelling. *)
Definition json_key (v : pyval) : string :=
  match v with
  | PNone => "null"
  | PBool true => "true"
  | PBool false => "false"
  | PInt z => pretty z
  | PStr s => s
  end.

(** [None] as an optional string argument. *)
Definition of_opt (o : option string) : pyval :=
  match o with
  | Some s => PStr s
  | None => PNone
  end.

Inductive exn : Type :=
| FileNotFoundError
| JSONDecodeError
| KeyError (key : string)
| HTTPException (status_code : Z) (detail : string).

Inductive result (A : Type) : Type :=
| Returned (a : A)
| Raised (e : exn).
Arguments Returned {A} a.
Arguments Raised {A} e.

(* --------------------------------------------------------------------- *)
(* shipments.json                                                        *)
(* --------------------------------------------------------------------- *)

Abbreviation store := (gmap string dict).

Inductive file : Type :=
| Missing
| Invalid
| Valid (shipments : store).

(** [with open("shipments.json", "r") as f: shipments = json.load(f)] *)
Definition json_load (f : file) : result store :=
  match f with
  | Missing => Raised FileNotFoundError
  | Invalid => Raised JSONDecodeError
  | Valid shipments => Returned shipments
  end.

(** Python truthiness of an optional string: [None] and [""] are falsy. *)
Definition truthy (o : option string) : bool :=
  match o with
  | Some s => negb (String.eqb s "")
  | None => false
  end.

(* --------------------------------------------------------------------- *)
(* Activities (run_worker.py)                                            *)
(* --------------------------------------------------------------------- *)

(* The log lines of the activities themselves are left out; the one of
   [create_shipment_record] matters only in that it reads a key. *)

(** The three assignments of [update_shipment_status] on the record
    [shipments[shipment_id]]. *)
Definition update_record (status : string)
    (current_location issue_details : option string) (r : dict) : dict :=
  let r1 := <["status" := PStr status]> r in
  let r2 := if truthy current_location
            then <["current_location" := of_opt current_location]> r1
            else r1 in
  match issue_details with
  | Some d => <["issue_details" := PStr d]> r2
  | None => r2
  end.

(** The body between the read and the write of [update_shipment_status].
    Every key of a loaded JSON object is a string, so [shipment_id in
    shipments] is false for an id that is not a string. *)
Definition update_shipments (shipment_id : pyval) (status : string)
    (current_location issue_details : option string)
    (shipments : store) : store :=
  match shipment_id with
  | PStr sid =>
      match shipments !! sid with
      | Some r =>
          <[sid := update_record status current_location issue_details r]>
            shipments
      | None => shipments
      end
  | _ => shipments
  end.

Definition update_shipment_status (shipment_id : pyval) (status : string)
    (current_location issue_details : option string)
    (f : file) : file * result dict :=
  match json_load f with
  | Raised e => (f, Raised e)
  | Returned shipments =>
      (Valid (update_shipments shipment_id status current_location
                issue_details shipments),
       Returned (<["status" := PStr status]>
                   {["shipment_id" := shipment_id]}))
  end.

(** [create_shipment_record]: the log line reads
    [shipment_data['shipment_id']] before the file is opened. *)
Definition create_shipment_record (shipment_data : dict)
    (f : file) : file * result dict :=
  match shipment_data !! "shipment_id" with
  | None => (f, Raised (KeyError "shipment_id"))
  | Some shipment_id =>
      match json_load f with
      | Raised e => (f, Raised e)
      | Returned shipments =>
          (Valid (<[json_key shipment_id := shipment_data]> shipments),
           Returned shipment_data)
      end
  end.

(* --------------------------------------------------------------------- *)
(* The workflow as a tree of requests                                    *)
(* --------------------------------------------------------------------- *)

(** The fields of a [ShipmentLifecycleWorkflow] object. *)
Record instance : Type := Instance { resolution_choice : option string }.

(** [__init__] *)
Definition init : instance := {| resolution_choice := None |}.

Inductive activity : Type :=
| CreateShipmentRecord (shipment_data : dict)
| UpdateShipmentStatus (shipment_id : pyval) (status : string)
    (current_location issue_details : option string).

Definition run_activity (a : activity) : file -> file * result dict :=
  match a with
  | CreateShipmentRecord shipment_data =>
      create_shipment_record shipment_data
  | UpdateShipmentStatus shipment_id status current_location issue_details =>
      update_shipment_status shipment_id status current_location issue_details
  end.

Inductive level : Type := INFO | WARNING | ERROR.

(** What the coroutine asks of the runtime, with the rest of the
    coroutine as continuation. *)
Inductive wf (R : Type) : Type :=
| Ret (r : R)
| Throw (e : exn)
| Logger (l : level) (msg : string) (k : wf R)
| ExecuteActivity (a : activity) (start_to_close_timeout : nat)
    (k : dict -> wf R)
| Sleep (seconds : nat) (k : wf R)
| WaitCondition (cond : instance -> bool) (k : wf R)
| Self (k : instance -> wf R).
Arguments Ret {R} r.
Arguments Throw {R} e.
Arguments Logger {R} l msg k.
Arguments ExecuteActivity {R} a start_to_close_timeout k.
Arguments Sleep {R} seconds k.
Arguments WaitCondition {R} cond k.
Arguments Self {R} k.

Fixpoint wf_bind {A B : Type} (f : A -> wf B) (m : wf A) : wf B :=
  match m with
  | Ret a => f a
  | Throw e => Throw e
  | Logger l msg k => Logger l msg (wf_bind f k)
  | ExecuteActivity a t k => ExecuteActivity a t (fun v => wf_bind f (k v))
  | Sleep n k => Sleep n (wf_bind f k)
  | WaitCondition c k => WaitCondition c (wf_bind f k)
  | Self k => Self (fun i => wf_bind f (k i))
  end.

#[global] Instance wf_mret : MRet wf := @Ret.
#[global] Instance wf_mbind : MBind wf := @wf_bind.

Module Workflow.
Definition logger_info (msg : string) : wf unit := Logger INFO msg (Ret tt).
Definition logger_warning (msg : string) : wf unit :=
  Logger WARNING msg (Ret tt).
Definition execute_activity (a : activity) (timeout : nat) : wf dict :=
  ExecuteActivity a timeout Ret.
Definition sleep (seconds : nat) : wf unit := Sleep seconds (Ret tt).
Definition wait_condition (cond : instance -> bool) : wf unit :=
  WaitCondition cond (Ret tt).
Definition self : wf instance := Self Ret.
(** [d[key]] *)
Definition getitem (d : dict) (key : string) : wf pyval :=
  match d !! key with
  | Some v => Ret v
  | None => Throw (KeyError key)
  end.
End Workflow.
Import Workflow.

(** [self.resolution_choice == s] *)
Definition choice_is (i : instance) (s : string) : bool :=
  bool_decide (resolution_choice i = Some s).

(** [ShipmentLifecycleWorkflow.run], steps 1 to 4: up to the pause. *)
Definition run_until_issue (shipment_data : dict) (shipment_id : pyval)
    : wf unit :=
  logger_info ("Starting shipment lifecycle for " +:+ py_str shipment_id);;
  execute_activity (CreateShipmentRecord shipment_data) 10;;
  logger_info (py_str shipment_id +:+ ": Simulating travel time...");;
  sleep 3;;
  destination ← getitem shipment_data "destination";
  execute_activity
    (UpdateShipmentStatus shipment_id "In Transit"
       (Some ("En route to " +:+ py_str destination)) None) 10;;
  logger_info (py_str shipment_id +:+ ": Continuing journey...");;
  sleep 3;;
  destination ← getitem shipment_data "destination";
  execute_activity
    (UpdateShipmentStatus shipment_id "At Customs"
       (Some ("Customs checkpoint - " +:+ py_str destination)) None) 10;;
  logger_info (py_str shipment_id +:+ ": Issue detected at customs!");;
  sleep 2;;
  destination ← getitem shipment_data "destination";
  execute_activity
    (UpdateShipmentStatus shipment_id "Issue Detected"
       (Some ("Customs checkpoint - " +:+ py_str destination))
       (Some "Documentation discrepancy found - requires manual review"))
    10;;
  mret tt.

(** One arm of the [if]/[elif] chain of step 5: a log line, a sleep and
    the "Cleared Customs" update. *)
Definition clear_customs (shipment_data : dict) (shipment_id : pyval)
    (l : level) (msg : string) (seconds : nat) (location : string)
    : wf unit :=
  Logger l (py_str shipment_id +:+ msg) (Ret tt);;
  sleep seconds;;
  destination ← getitem shipment_data "destination";
  execute_activity
    (UpdateShipmentStatus shipment_id "Cleared Customs"
       (Some (location +:+ " - " +:+ py_str destination)) None) 10;;
  mret tt.

(** Step 5.  [self.resolution_choice] is read for the log line and for
    each comparison; no request stands between these reads, so they see
    one value, read here once. *)
Definition process_resolution (shipment_data : dict) (shipment_id : pyval)
    : wf unit :=
  this ← self;
  logger_info (py_str shipment_id +:+ ": Received resolution choice: "
               +:+ py_str (of_opt (resolution_choice this)));;
  if choice_is this "expedite" then
    clear_customs shipment_data shipment_id INFO
      ": Processing express clearance (+$5000)..." 2
      "Customs cleared (Express Service)"
  else if choice_is this "bribe_official" then
    clear_customs shipment_data shipment_id INFO
      ": Processing facilitation payment (+$2500)..." 3
      "Customs cleared (Expedited Processing)"
  else if choice_is this "reroute" then
    clear_customs shipment_data shipment_id INFO
      ": Rerouting shipment through alternative port (+$3200)..." 4
      "Rerouted and cleared (Alternative Port)"
  else if choice_is this "wait" then
    clear_customs shipment_data shipment_id INFO
      ": Waiting for standard processing (no additional cost)..." 6
      "Customs cleared (Standard Processing)"
  else
    clear_customs shipment_data shipment_id WARNING
      ": Unknown choice, defaulting to standard processing" 6
      "Customs cleared".

(** The dict [run] returns:
    [{"shipment_id": shipment_id, "status": "Delivered",
      "resolution": self.resolution_choice}]. *)
Definition run_result (shipment_id : pyval) (choice : option string) : dict :=
  <["resolution" := of_opt choice]>
    (<["status" := PStr "Delivered"]> {["shipment_id" := shipment_id]}).

(** Step 6 and the return. *)
Definition deliver (shipment_data : dict) (shipment_id : pyval) : wf dict :=
  logger_info (py_str shipment_id +:+ ": Out for delivery...");;
  sleep 3;;
  destination ← getitem shipment_data "destination";
  execute_activity
    (UpdateShipmentStatus shipment_id "Delivered"
       (Some ("Delivered to " +:+ py_str destination)) None) 10;;
  logger_info (py_str shipment_id +:+ ": Shipment lifecycle complete!");;
  this ← self;
  mret (run_result shipment_id (resolution_choice this)).

(** [ShipmentLifecycleWorkflow.run] *)
Definition run (shipment_data : dict) : wf dict :=
  shipment_id ← getitem shipment_data "shipment_id";
  run_until_issue shipment_data shipment_id;;
  logger_info (py_str shipment_id +:+ ": Waiting for resolution signal...");;
  wait_condition
    (fun this => bool_decide (resolution_choice this ≠ None));;
  process_resolution shipment_data shipment_id;;
  deliver shipment_data shipment_id.

(* --------------------------------------------------------------------- *)
(* The runtime: one workflow instance driven against shipments.json      *)
(* --------------------------------------------------------------------- *)

Inductive event : Type :=
| Logged (l : level) (msg : string)
| ActivityCompleted (a : activity) (start_to_close_timeout : nat)
    (written : file)
| TimerFired (seconds : nat)
| SignalReceived (choice : string).

(** What the outside world sends: for each suspension of the coroutine,
    in order, the choices signalled during it.  Past the end of the list
    nothing is sent any more. *)
Abbreviation schedule := (list (list string)).

Record world : Type := World {
  shipments_json : file;
  this : instance;
  journal : list event;   (* oldest first *)
  incoming : schedule     (* the signals still to arrive *)
}.

Definition record (e : event) (w : world) : world :=
  {| shipments_json := shipments_json w;
     this := this w;
     journal := journal w ++ [e];
     incoming := incoming w |}.

(** [ShipmentLifecycleWorkflow.handle_resolution] *)
Definition handle_resolution (choice : string) (w : world) : world :=
  let w := record (SignalReceived choice) w in
  let w := record (Logged INFO
                     ("Received resolution signal with choice: " +:+ choice))
             w in
  {| shipments_json := shipments_json w;
     this := {| resolution_choice := Some choice |};
     journal := journal w;
     incoming := incoming w |}.

(** The signals that arrive while the coroutine is suspended at one
    request are handled in order of arrival before it resumes. *)
Definition handle_all (signals : list string) (w : world) : world :=
  foldl (fun w choice => handle_resolution choice w) w signals.

(** The coroutine is resumed after a suspension: the signals that came in
    meanwhile have been handled. *)
Definition resume (w : world) : world :=
  handle_all (default [] (head (incoming w)))
    {| shipments_json := shipments_json w;
       this := this w;
       journal := journal w;
       incoming := tail (incoming w) |}.

Inductive outcome (R : Type) : Type :=
| Completed (r : R) (w : world)
| WorkflowRaised (e : exn) (w : world)
    (* the workflow code itself raised *)
| ActivityFailing (a : activity) (e : exn) (w : world)
    (* the activity raises on this file; no retry policy is given, so it
       is retried without bound and the workflow does not resume *)
| Suspended (w : world).
    (* waiting on the condition and no signal is left to arrive *)
Arguments Completed {R} r w.
Arguments WorkflowRaised {R} e w.
Arguments ActivityFailing {R} a e w.
Arguments Suspended {R} w.

(** [workflow.wait_condition]: goes on as soon as the condition holds,
    else is resumed by the next signals and looks again. *)
Fixpoint await (cond : instance -> bool) (sched : schedule) (w : world)
    : bool * world :=
  if cond (this w)
  then (true, {| shipments_json := shipments_json w;
                 this := this w;
                 journal := journal w;
                 incoming := sched |})
  else match sched with
       | [] => (false, {| shipments_json := shipments_json w;
                          this := this w;
                          journal := journal w;
                          incoming := [] |})
       | signals :: sched => await cond sched (handle_all signals w)
       end.

(** The activity has run and left the file as [written]. *)
Definition completed (a : activity) (timeout : nat) (written : file)
    (w : world) : world :=
  {| shipments_json := written;
     this := this w;
     journal := journal w ++ [ActivityCompleted a timeout written];
     incoming := incoming w |}.

Fixpoint exec {R : Type} (p : wf R) (w : world) : outcome R :=
  match p with
  | Ret r => Completed r w
  | Throw e => WorkflowRaised e w
  | Logger l msg k => exec k (record (Logged l msg) w)
  | ExecuteActivity a t k =>
      match run_activity a (shipments_json w) with
      | (_, Raised e) => ActivityFailing a e w
      | (written, Returned v) => exec (k v) (resume (completed a t written w))
      end
  | Sleep n k => exec k (resume (record (TimerFired n) w))
  | WaitCondition cond k =>
      match await cond (incoming w) w with
      | (true, w') => exec k w'
      | (false, w') => Suspended w'
      end
  | Self k => exec (k (this w)) w
  end.

(** A freshly started instance, and what will be signalled to it. *)
Definition start (f : file) (sched : schedule) : world :=
  {| shipments_json := f; this := init; journal := []; incoming := sched |}.

(** The activities of a journal, in order, with their arguments. *)
Definition invocations (j : list event) : list activity :=
  omap (fun e => match e with
                 | ActivityCompleted a _ _ => Some a
                 | _ => None
                 end) j.

(** The timers of a journal, in order. *)
Definition timers (j : list event) : list nat :=
  omap (fun e => match e with TimerFired n => Some n | _ => None end) j.

(** The log lines of a journal with their levels. *)
Definition logged (j : list event) : list (level * string) :=
  omap (fun e => match e with Logged l m => Some (l, m) | _ => None end) j.

(** Status of a shipment in the file. *)
Definition status_in (sid : string) (f : file) : option pyval :=
  match f with
  | Valid shipments => shipments !! sid ≫= (.!! "status")
  | _ => None
  end.

(** The status of shipment [sid] as each activity of the journal left it
    in the file. *)
Definition persisted_statuses (sid : string) (j : list event)
    : list (option pyval) :=
  omap (fun e => match e with
                 | ActivityCompleted _ _ written => Some (status_in sid written)
                 | _ => None
                 end) j.

(** What a journal shows of the pace of a run: each activity with the
    status it left for shipment [sid], each timer with its seconds. *)
Inductive step : Type :=
| Persisted (status : option pyval)
| Waited (seconds : nat).

Definition steps (sid : string) (j : list event) : list step :=
  omap (fun e => match e with
                 | ActivityCompleted _ _ written =>
                     Some (Persisted (status_in sid written))
                 | TimerFired n => Some (Waited n)
                 | _ => None
                 end) j.

(** The location argument of the "Cleared Customs" update of a journal. *)
Definition cleared_customs_location (j : list event) : option string :=
  head (omap (fun a => match a with
                       | UpdateShipmentStatus _ "Cleared Customs" loc _ => loc
                       | _ => None
                       end) (invocations j)).

(* --------------------------------------------------------------------- *)
(* The HTTP layer (run_api.py)                                           *)
(* --------------------------------------------------------------------- *)

Module Api.

Record CreateShipmentRequest : Type := {
  project_name : string;
  supplier_name : string;
  origin : string;
  destination : string;
  cargo_value : option Z;
  priority : string;
  container_type : string
}.

(** The [shipment_data] dict of [create_shipment].  The id is built
    there from the clock and a random suffix; here it is an argument. *)
Definition shipment_data (shipment_id : string)
    (request : CreateShipmentRequest) : dict :=
  list_to_map
    [("shipment_id", PStr shipment_id);
     ("project_name", PStr (project_name request));
     ("supplier_name", PStr (supplier_name request));
     ("origin", PStr (origin request));
     ("destination", PStr (destination request));
     ("cargo_value", from_option PInt PNone (cargo_value request));
     ("priority", PStr (priority request));
     ("container_type", PStr (container_type request));
     ("current_location", PStr (origin request));
     ("status", PStr "Pending");
     ("issue_details", PNone)].

(** [get_all_shipments] *)
Definition get_all_shipments (f : file) : result store :=
  match json_load f with
  | Returned shipments => Returned shipments
  | Raised FileNotFoundError =>
      Raised (HTTPException 500 "Shipments database file not found")
  | Raised JSONDecodeError =>
      Raised (HTTPException 500 "Invalid JSON in shipments database")
  | Raised e => Raised e
  end.

(** [get_shipment] *)
Definition get_shipment (shipment_id : string) (f : file) : result dict :=
  match json_load f with
  | Returned shipments =>
      match shipments !! shipment_id with
      | None =>
          Raised (HTTPException 404
                    ("Shipment " +:+ shipment_id +:+ " not found"))
      | Some r => Returned r
      end
  | Raised FileNotFoundError =>
      Raised (HTTPException 500 "Shipments database file not found")
  | Raised JSONDecodeError =>
      Raised (HTTPException 500 "Invalid JSON in shipments database")
  | Raised e => Raised e
  end.

Definition valid_choices : list string :=
  ["expedite"; "wait"; "bribe_official"; "reroute"].

(** A call to the orchestration service either goes through, leaving the
    service in a new state, or raises; [str_e] is [str(e)]. *)
Inductive rpc (S : Type) : Type :=
| Done (s : S)
| Failed (str_e : string).
Arguments Done {S} s.
Arguments Failed {S} str_e.

Section Client.
(** The orchestration service is not part of the repository: its
    state and its two calls are parameters. *)
Variable service : Type.
(** [client.start_workflow(run, shipment_data, id=...)], with the
    connection it needs. *)
Variable start_workflow : string -> dict -> service -> rpc service.
(** [client.get_workflow_handle(id).signal(handle_resolution, choice)],
    with the connection it needs. *)
Variable signal : string -> string -> service -> rpc service.

(** [create_shipment], given the id it generated; the response keeps
    the message and the ids. *)
Definition create_shipment (shipment_id : string)
    (request : CreateShipmentRequest) (s : service)
    : service * result dict :=
  let data := shipment_data shipment_id request in
  match start_workflow shipment_id data s with
  | Done s' =>
      (s', Returned
             (list_to_map
                [("message",
                  PStr "Shipment created and workflow started");
                 ("shipment_id", PStr shipment_id);
                 ("workflow_id", PStr shipment_id)]))
  | Failed str_e =>
      (s, Raised
            (HTTPException 500
               ("Failed to create shipment or start workflow: "
                +:+ str_e)))
  end.

(** [resolve_shipment_issue] *)
Definition resolve_shipment_issue (shipment_id choice : string)
    (s : service) : service * result dict :=
  if negb (bool_decide (choice ∈ valid_choices)) then
    (s, Raised
          (HTTPException 400
             ("Invalid choice. Must be one of: "
              +:+ String.concat ", " valid_choices)))
  else
    match signal shipment_id choice s with
    | Done s' =>
        (s', Returned
               (list_to_map
                  [("message", PStr "Resolution signal sent to workflow");
                   ("shipment_id", PStr shipment_id);
                   ("choice", PStr choice)]))
    | Failed str_e =>
        (s, Raised
              (HTTPException 500
                 ("Failed to send signal to workflow: " +:+ str_e)))
    end.
End Client.

(** A small instance of the service: per workflow id, the choices
    signalled to it so far, oldest first. *)
Module Mailbox.
Abbreviation service := (gmap string (list string)).

Definition start_workflow (id : string) (_ : dict) (s : service)
    : rpc service :=
  match s !! id with
  | Some _ => Failed "Workflow execution already started"
  | None => Done (<[id := []]> s)
  end.

Definition signal (id choice : string) (s : service) : rpc service :=
  match s !! id with
  | Some signals => Done (<[id := signals ++ [choice]]> s)
  | None => Failed "workflow not found"
  end.
End Mailbox.

End Api.

(* --------------------------------------------------------------------- *)
(* The resolution table of the specification                             *)
(* --------------------------------------------------------------------- *)

(** Location label of the design's resolution table, by choice. *)
Definition table_label (choice : string) : option string :=
  if String.eqb choice "expedite" then Some "Express Service"
  else if String.eqb choice "bribe_official" then Some "Expedited Processing"
  else if String.eqb choice "reroute" then Some "Alternative Port"
  else if String.eqb choice "wait" then Some "Standard Processing"
  else None.

(** The signals of a run in which the single choice arrives when [n]
    earlier suspensions have passed. *)
Definition signal_after (n : nat) (choice : string) : schedule :=
  replicate n [] ++ [[choice]].

(** The coroutine is suspended seven times (four activities, three
    timers) before it waits for the resolution. *)
Definition at_issue_detected : nat := 7.

(** Once it has the resolution it is suspended four more times (two
    timers, two activities) before it returns. *)
Definition after_resolution : nat := 4.

(** A shipment as [create_shipment] would hand it to the workflow. *)
Module Example.
Definition request : Api.CreateShipmentRequest :=
  {| Api.project_name := "Harbour Bridge";
     Api.supplier_name := "Acme Steel";
     Api.origin := "Warehouse Alpha";
     Api.destination := "Rotterdam";
     Api.cargo_value := Some 125000%Z;
     Api.priority := "Standard";
     Api.container_type := "40ft Standard" |}.

Definition payload : dict := Api.shipment_data "SHP-1" request.
End Example.

(* --------------------------------------------------------------------- *)
(* Vocabulary for the statements                                         *)
(* --------------------------------------------------------------------- *)

(** The world in which a run stopped, and what it returned if it did. *)
Definition final {R : Type} (o : outcome R) : world :=
  match o with
  | Completed _ w | WorkflowRaised _ w | ActivityFailing _ _ w
  | Suspended w => w
  end.

Definition answer {R : Type} (o : outcome R) : option R :=
  match o with
  | Completed r _ => Some r
  | _ => None
  end.

(** What the arms of the [if]/[elif] chain of step 5 differ in: level and
    text of the log line, seconds slept, and the head of the location. *)
Definition clearance (choice : option string)
    : level * string * nat * string :=
  if bool_decide (choice = Some "expedite") then
    (INFO, ": Processing express clearance (+$5000)...", 2,
     "Customs cleared (Express Service)")
  else if bool_decide (choice = Some "bribe_official") then
    (INFO, ": Processing facilitation payment (+$2500)...", 3,
     "Customs cleared (Expedited Processing)")
  else if bool_decide (choice = Some "reroute") then
    (INFO, ": Rerouting shipment through alternative port (+$3200)...", 4,
     "Rerouted and cleared (Alternative Port)")
  else if bool_decide (choice = Some "wait") then
    (INFO, ": Waiting for standard processing (no additional cost)...", 6,
     "Customs cleared (Standard Processing)")
  else
    (WARNING, ": Unknown choice, defaulting to standard processing", 6,
     "Customs cleared").

(** A journal entry without the file it saw. *)
Definition forget_written (e : event) : event :=
  match e with
  | ActivityCompleted a t _ => ActivityCompleted a t Missing
  | _ => e
  end.

(** Two worlds that differ at most in what the store holds. *)
Definition same_but_store (w1 w2 : world) : Prop :=
  (exists s1 s2, shipments_json w1 = Valid s1 ∧ shipments_json w2 = Valid s2)
  ∧ this w1 = this w2
  ∧ incoming w1 = incoming w2
  ∧ map forget_written (journal w1) = map forget_written (journal w2).

(** Two runs that ended the same way, in such worlds. *)
Definition same_run {R : Type} (o1 o2 : outcome R) : Prop :=
  match o1, o2 with
  | Completed r1 w1, Completed r2 w2 => r1 = r2 ∧ same_but_store w1 w2
  | WorkflowRaised e1 w1, WorkflowRaised e2 w2 =>
      e1 = e2 ∧ same_but_store w1 w2
  | ActivityFailing a1 e1 w1, ActivityFailing a2 e2 w2 =>
      a1 = a2 ∧ e1 = e2 ∧ same_but_store w1 w2
  | Suspended w1, Suspended w2 => same_but_store w1 w2
  | _, _ => False
  end.

(** The journal entries a batch of signals leaves. *)
Definition signal_events (signals : list string) : list event :=
  concat (map (fun c =>
                 [SignalReceived c;
                  Logged INFO
                    ("Received resolution signal with choice: " +:+ c)])
            signals).

(** The instance after a batch of signals: the last one wins. *)
Definition latest (signals : list string) (i : instance) : instance :=
  {| resolution_choice :=
       from_option Some (resolution_choice i) (last signals) |}.

(** The store after the four activities that lead to "Issue Detected",
    after the "Cleared Customs" update, and after the "Delivered" one. *)
Definition store_at_issue (sd : dict) (id dest : pyval) (s : store) : store :=
  update_shipments id "Issue Detected"
    (Some ("Customs checkpoint - " +:+ py_str dest))
    (Some "Documentation discrepancy found - requires manual review")
    (update_shipments id "At Customs"
       (Some ("Customs checkpoint - " +:+ py_str dest)) None
       (update_shipments id "In Transit"
          (Some ("En route to " +:+ py_str dest)) None
          (<[json_key id := sd]> s))).

Definition store_cleared (sd : dict) (id dest : pyval) (loc : string)
    (s : store) : store :=
  update_shipments id "Cleared Customs"
    (Some (loc +:+ " - " +:+ py_str dest)) None (store_at_issue sd id dest s).

Definition store_delivered (sd : dict) (id dest : pyval) (loc : string)
    (s : store) : store :=
  update_shipments id "Delivered"
    (Some ("Delivered to " +:+ py_str dest)) None
    (store_cleared sd id dest loc s).

(** The six activities of a run whose step 5 used location head [loc]. *)
Definition lifecycle_calls (sd : dict) (id dest : pyval) (loc : string)
    : list activity :=
  [CreateShipmentRecord sd;
   UpdateShipmentStatus id "In Transit"
     (Some ("En route to " +:+ py_str dest)) None;
   UpdateShipmentStatus id "At Customs"
     (Some ("Customs checkpoint - " +:+ py_str dest)) None;
   UpdateShipmentStatus id "Issue Detected"
     (Some ("Customs checkpoint - " +:+ py_str dest))
     (Some "Documentation discrepancy found - requires manual review");
   UpdateShipmentStatus id "Cleared Customs"
     (Some (loc +:+ " - " +:+ py_str dest)) None;
   UpdateShipmentStatus id "Delivered"
     (Some ("Delivered to " +:+ py_str dest)) None].

(** The files these six activities leave, in order. *)
Definition lifecycle_files (sd : dict) (id dest : pyval) (loc : string)
    (s : store) : list file :=
  [Valid (<[json_key id := sd]> s);
   Valid (update_shipments id "In Transit"
            (Some ("En route to " +:+ py_str dest)) None
            (<[json_key id := sd]> s));
   Valid (update_shipments id "At Customs"
            (Some ("Customs checkpoint - " +:+ py_str dest)) None
            (update_shipments id "In Transit"
               (Some ("En route to " +:+ py_str dest)) None
               (<[json_key id := sd]> s)));
   Valid (store_at_issue sd id dest s);
   Valid (store_cleared sd id dest loc s);
   Valid (store_delivered sd id dest loc s)].

(* ===================================================================== *)
(* Properties of the activities                                          *)
(* ===================================================================== *)

Section Activities.
Implicit Types (r : dict) (shipments : store) (f : file).
Implicit Types (status sid : string) (loc iss : option string).

Lemma update_record_status status loc iss r :
  update_record status loc iss r !! "status" = Some (PStr status).
Proof.
  unfold update_record.
  destruct (truthy loc), iss; by simplify_map_eq.
Qed.

Lemma update_record_location status loc iss r :
  update_record status loc iss r !! "current_location" =
    if truthy loc then Some (of_opt loc) else r !! "current_location".
Proof.
  unfold update_record.
  destruct (truthy loc), iss; by simplify_map_eq.
Qed.

Lemma update_record_issue status loc iss r :
  update_record status loc iss r !! "issue_details" =
    match iss with
    | Some d => Some (PStr d)
    | None => r !! "issue_details"
    end.
Proof.
  unfold update_record.
  destruct (truthy loc), iss; by simplify_map_eq.
Qed.

Lemma update_record_other status loc iss r k :
  k ≠ "status" -> k ≠ "current_location" -> k ≠ "issue_details" ->
  update_record status loc iss r !! k = r !! k.
Proof.
  intros. unfold update_record.
  destruct (truthy loc), iss; by simplify_map_eq.
Qed.

(** Every field of the updated record, by key. *)
Lemma update_record_lookup status loc iss r k :
  update_record status loc iss r !! k =
    if decide (k = "status") then Some (PStr status)
    else if decide (k = "current_location")
         then (if truthy loc then Some (of_opt loc) else r !! k)
    else if decide (k = "issue_details")
         then match iss with Some d => Some (PStr d) | None => r !! k end
    else r !! k.
Proof.
  repeat case_decide; subst.
  - apply update_record_status.
  - apply update_record_location.
  - apply update_record_issue.
  - by apply update_record_other.
Qed.

Lemma update_record_idemp status loc iss r :
  update_record status loc iss (update_record status loc iss r) =
  update_record status loc iss r.
Proof.
  apply map_eq. intros k. rewrite !update_record_lookup.
  repeat case_decide; try done; by destruct (truthy loc), iss.
Qed.

Lemma update_shipments_idemp v status loc iss shipments :
  update_shipments v status loc iss
    (update_shipments v status loc iss shipments) =
  update_shipments v status loc iss shipments.
Proof.
  destruct v as [| | |sid]; try done. simpl.
  destruct (shipments !! sid) as [r|] eqn:E; simpl.
  - rewrite lookup_insert_eq, insert_insert_eq.
    by rewrite update_record_idemp.
  - by rewrite E.
Qed.

Lemma update_shipments_found sid status loc iss shipments r :
  shipments !! sid = Some r ->
  update_shipments (PStr sid) status loc iss shipments =
    <[sid := update_record status loc iss r]> shipments.
Proof. intros E. simpl. by rewrite E. Qed.

Lemma update_shipments_absent sid status loc iss shipments :
  shipments !! sid = None ->
  update_shipments (PStr sid) status loc iss shipments = shipments.
Proof. intros E. simpl. by rewrite E. Qed.
Lemma update_shipments_lookup sid status loc iss shipments :
  update_shipments (PStr sid) status loc iss shipments !! sid =
    update_record status loc iss <$> shipments !! sid.
Proof.
  simpl. destruct (shipments !! sid) as [r|] eqn:E; simpl.
  - by rewrite lookup_insert_eq.
  - by rewrite E.
Qed.
End Activities.

(** C7.  Both upserts are idempotent: run a second time with the same
    arguments, [update_shipment_status] and [create_shipment_record] leave
    shipments.json as the first run left it, and answer the same. *)
Theorem upsert_idempotent (f : file) (shipment_id : pyval) (status : string)
    (current_location issue_details : option string) (shipment_data : dict) :
  let update :=
    update_shipment_status shipment_id status current_location issue_details in
  let create := create_shipment_record shipment_data in
  update (fst (update f)) = update f ∧ create (fst (create f)) = create f.
Proof.
  split.
  - destruct f as [| |shipments]; try done.
    unfold update_shipment_status. simpl.
    by rewrite update_shipments_idemp.
  - unfold create_shipment_record.
    destruct (shipment_data !! "shipment_id") as [v|] eqn:E; simpl;
      rewrite ?E; try done.
    destruct f as [| |shipments]; simpl; rewrite ?E; try done.
    simpl. by rewrite insert_insert_eq.
Qed.

(** C10.  On a store that holds the shipment, a status update with a
    falsy location keeps [current_location], one without issue details
    keeps [issue_details], and in every case the other fields of the
    record and the other records of the store stay as they were. *)
Theorem update_shipment_status_frame (shipments : store) (sid : string)
    (r : dict) (status : string)
    (current_location issue_details : option string) :
  shipments !! sid = Some r ->
  exists r',
    fst (update_shipment_status (PStr sid) status current_location
           issue_details (Valid shipments)) = Valid (<[sid := r']> shipments)
    ∧ (current_location = None ∨ current_location = Some "" ->
       r' !! "current_location" = r !! "current_location")
    ∧ (issue_details = None -> r' !! "issue_details" = r !! "issue_details")
    ∧ (forall k, k ≠ "status" -> k ≠ "current_location" ->
                 k ≠ "issue_details" -> r' !! k = r !! k)
    ∧ (forall sid', sid' ≠ sid ->
         <[sid := r']> shipments !! sid' = shipments !! sid').
Proof.
  intros E. exists (update_record status current_location issue_details r).
  split; [|split; [|split; [|split]]].
  - unfold update_shipment_status. simpl. by rewrite E.
  - intros [-> | ->]; by rewrite update_record_location.
  - intros ->. by rewrite update_record_issue.
  - intros k ???. by apply update_record_other.
  - intros sid' Hne. by rewrite lookup_insert_ne.
Qed.

(* ===================================================================== *)
(* Properties of the runtime                                             *)
(* ===================================================================== *)

Arguments exec : simpl never.
Arguments resume : simpl never.
Arguments update_shipments : simpl never.
Arguments clear_customs : simpl never.
Arguments signal_events : simpl never.
Arguments latest : simpl never.

Section Runtime.
Context {R : Type}.
Implicit Types (w : world) (k : wf R) (signals : list string).

(** Running a sequence is running its parts in turn. *)
Lemma exec_bind {A} (m : wf A) (f : A -> wf R) w :
  exec (m ≫= f) w =
    match exec m w with
    | Completed r w' => exec (f r) w'
    | WorkflowRaised e w' => WorkflowRaised e w'
    | ActivityFailing a e w' => ActivityFailing a e w'
    | Suspended w' => Suspended w'
    end.
Proof.
  revert w.
  induction m as [r|e|l msg m IH|a t m IH|n m IH|cond m IH|m IH];
    intros w; try done.
  - apply IH.
  - unfold exec; simpl; fold (@exec A); fold (@exec R).
    destruct (run_activity a (shipments_json w)) as [written [v|e]];
      [apply IH|done].
  - apply IH.
  - unfold exec; simpl; fold (@exec A); fold (@exec R).
    destruct (await cond (incoming w) w) as [[] w']; [apply IH|done].
  - apply IH.
Qed.

Lemma handle_all_eq signals w :
  handle_all signals w =
    {| shipments_json := shipments_json w;
       this := latest signals (this w);
       journal := journal w ++ signal_events signals;
       incoming := incoming w |}.
Proof.
  revert w. induction signals as [|c l IH]; intros [f [o] j inc].
  - unfold signal_events, latest. simpl. by rewrite app_nil_r.
  - simpl. rewrite IH. unfold signal_events, latest. simpl.
    rewrite <- !app_assoc. simpl. do 2 f_equal.
    destruct l as [|c' l']; [done|].
    change (last (c :: c' :: l')) with (last (c' :: l')).
    destruct (last (c' :: l')) eqn:E; [done|].
    by apply last_None in E.
Qed.

Lemma resume_eq w :
  resume w =
    {| shipments_json := shipments_json w;
       this := latest (default [] (head (incoming w))) (this w);
       journal := journal w ++ signal_events (default [] (head (incoming w)));
       incoming := tail (incoming w) |}.
Proof. unfold resume. by rewrite handle_all_eq. Qed.

Lemma resume_file w : shipments_json (resume w) = shipments_json w.
Proof. by rewrite resume_eq. Qed.

Lemma exec_logger l msg k w :
  exec (Logger l msg k) w = exec k (record (Logged l msg) w).
Proof. done. Qed.

Lemma exec_sleep n k w :
  exec (Sleep n k) w = exec k (resume (record (TimerFired n) w)).
Proof. done. Qed.

Lemma exec_self (k : instance -> wf R) w :
  exec (Self k) w = exec (k (this w)) w.
Proof. done. Qed.

Lemma exec_wait cond k w :
  exec (WaitCondition cond k) w =
    match await cond (incoming w) w with
    | (true, w') => exec k w'
    | (false, w') => Suspended w'
    end.
Proof. done. Qed.

Lemma exec_update id st loc iss t (k : dict -> wf R) w s :
  shipments_json w = Valid s ->
  exec (ExecuteActivity (UpdateShipmentStatus id st loc iss) t k) w =
    exec (k (<["status" := PStr st]> {["shipment_id" := id]}))
      (resume (completed (UpdateShipmentStatus id st loc iss) t
                 (Valid (update_shipments id st loc iss s)) w)).
Proof.
  intros E. unfold exec; simpl. unfold update_shipment_status.
  by rewrite E.
Qed.

Lemma exec_create sd id t (k : dict -> wf R) w s :
  sd !! "shipment_id" = Some id ->
  shipments_json w = Valid s ->
  exec (ExecuteActivity (CreateShipmentRecord sd) t k) w =
    exec (k sd)
      (resume (completed (CreateShipmentRecord sd) t
                 (Valid (<[json_key id := sd]> s)) w)).
Proof.
  intros Hid E. unfold exec; simpl. unfold create_shipment_record.
  by rewrite Hid, E.
Qed.

(** Waiting changes neither the file nor what was done so far; it only
    takes in signals, and it stops waiting only on a true condition. *)
Lemma await_inv cond sched w b w' :
  await cond sched w = (b, w') ->
  shipments_json w' = shipments_json w
  ∧ (exists signals, journal w' = journal w ++ signal_events signals)
  ∧ (b = true -> cond (this w') = true).
Proof.
  revert w. induction sched as [|signals sched IH]; intros w; simpl.
  - destruct (cond (this w)) eqn:E; intros [= <- <-]; simpl;
      (split; [done|split; [|done]]); exists []; by rewrite app_nil_r.
  - destruct (cond (this w)) eqn:E.
    + intros [= <- <-]; simpl.
      split; [done|split; [|done]]. exists []. by rewrite app_nil_r.
    + intros H. apply IH in H as (Hf & [l Hj] & Hc).
      rewrite handle_all_eq in Hf, Hj. simpl in Hf, Hj.
      split; [done|split; [|done]].
      exists (signals ++ l). rewrite Hj, <- app_assoc. f_equal.
      unfold signal_events. by rewrite map_app, concat_app.
Qed.
(** The wait ends with the first signals if they make the condition
    true. *)
Lemma await_first cond signals sched w :
  cond (this w) = false ->
  cond (latest signals (this w)) = true ->
  await cond (signals :: sched) w =
    (true, {| shipments_json := shipments_json w;
              this := latest signals (this w);
              journal := journal w ++ signal_events signals;
              incoming := sched |}).
Proof.
  intros H1 H2. simpl. rewrite H1, handle_all_eq.
  destruct sched; simpl; by rewrite H2.
Qed.
End Runtime.

(** The five arms of step 5 are one arm over [clearance]. *)
Lemma resolution_arm sd id (i : instance) :
  (if choice_is i "expedite" then
     clear_customs sd id INFO
       ": Processing express clearance (+$5000)..." 2
       "Customs cleared (Express Service)"
   else if choice_is i "bribe_official" then
     clear_customs sd id INFO
       ": Processing facilitation payment (+$2500)..." 3
       "Customs cleared (Expedited Processing)"
   else if choice_is i "reroute" then
     clear_customs sd id INFO
       ": Rerouting shipment through alternative port (+$3200)..." 4
       "Rerouted and cleared (Alternative Port)"
   else if choice_is i "wait" then
     clear_customs sd id INFO
       ": Waiting for standard processing (no additional cost)..." 6
       "Customs cleared (Standard Processing)"
   else
     clear_customs sd id WARNING
       ": Unknown choice, defaulting to standard processing" 6
       "Customs cleared") =
  let '(l, msg, n, loc) := clearance (resolution_choice i) in
  clear_customs sd id l msg n loc.
Proof. unfold clearance, choice_is. by repeat case_bool_decide. Qed.

(* ===================================================================== *)
(* Running the lifecycle                                                 *)
(* ===================================================================== *)

(** One request of the coroutine, on a world whose file is known; the
    world is kept as a record of its four fields. *)
Ltac world_fields :=
  cbn [shipments_json this journal incoming record completed start
       mbind wf_mbind wf_bind mret wf_mret].

Ltac file_known := rewrite ?resume_file; world_fields; reflexivity.

Ltac wf_step Hid Hdest :=
  first [ rewrite exec_logger
        | rewrite exec_sleep
        | rewrite exec_self
        | erewrite exec_update by file_known
        | erewrite (exec_create _ _ _ _ _ _ Hid) by file_known
        | progress (unfold Workflow.getitem; rewrite Hdest) ];
  rewrite ?resume_eq; world_fields.

Ltac wf_steps Hid Hdest := repeat wf_step Hid Hdest.

(** Reading a journal that is a chain of appended pieces. *)
Lemma omap_signal_events {A} (f : event -> option A) signals :
  (forall c, f (SignalReceived c) = None) ->
  (forall l m, f (Logged l m) = None) ->
  omap f (signal_events signals) = [].
Proof.
  intros Hs Hl. unfold signal_events.
  induction signals as [|c l IH]; [done|].
  simpl. by rewrite Hs, Hl.
Qed.

Ltac read_journal :=
  unfold invocations, timers, logged, persisted_statuses, steps;
  rewrite <- ?app_assoc;
  repeat (rewrite ?omap_app, ?omap_signal_events by done;
          cbn [omap list_omap app]).

(** Any run that completes, whatever was signalled and when. *)
Lemma run_completed_inv sd id dest s sched res w' :
  sd !! "shipment_id" = Some id ->
  sd !! "destination" = Some dest ->
  exec (run sd) (start (Valid s) sched) = Completed res w' ->
  exists c l msg n loc,
    clearance (Some c) = (l, msg, n, loc)
    ∧ res = run_result id (resolution_choice (this w'))
    ∧ shipments_json w' = Valid (store_delivered sd id dest loc s)
    ∧ invocations (journal w') = lifecycle_calls sd id dest loc
    ∧ timers (journal w') = [3; 3; 2; n; 3]
    ∧ forall sid,
        persisted_statuses sid (journal w') =
          map (status_in sid) (lifecycle_files sd id dest loc s)
        ∧ steps sid (journal w') =
            match map (fun f => Persisted (status_in sid f))
                    (lifecycle_files sd id dest loc s) with
            | [p1; p2; p3; p4; p5; p6] =>
                [p1; Waited 3; p2; Waited 3; p3; Waited 2; p4;
                 Waited n; p5; Waited 3; p6]
            | _ => []
            end.
Proof.
  intros Hid Hdest H. pattern res, w'.
  match goal with |- ?Q res w' => remember Q as P eqn:HP end.
  revert H. unfold run, Workflow.getitem. rewrite Hid. simpl.
  wf_steps Hid Hdest.
  rewrite exec_wait.
  match goal with
  | |- context [await ?c ?i ?w] => destruct (await c i w) as [[] w1] eqn:Ha
  end; [|done].
  apply await_inv in Ha as (Hf & [signals Hj] & Hcond).
  specialize (Hcond eq_refl). apply bool_decide_eq_true in Hcond.
  destruct w1 as [f1 [[c|]] j1 inc1]; [|done].
  cbn [shipments_json journal record] in Hf, Hj. subst f1. clear Hcond.
  wf_steps Hid Hdest.
  rewrite resolution_arm. cbn [resolution_choice].
  destruct (clearance (Some c)) as [[[l msg] n] loc] eqn:Hc.
  unfold clear_customs, deliver. simpl.
  wf_steps Hid Hdest.
  unfold exec. intros [= <- <-]. subst P j1.
  exists c, l, msg, n, loc. split; [done|].
  world_fields. split; [done|]. split; [done|].
  repeat split; try intros sid; read_journal; reflexivity.
Qed.

Ltac signals_known :=
  unfold latest, signal_events;
  cbn [head tail default Datatypes.id latest last from_option
       resolution_choice init signal_events concat map app of_opt py_str].

(** A run that is signalled [c] while it waits at "Issue Detected", and
    whatever else afterwards. *)
Lemma run_resolved_then sd id dest s c late l msg n loc :
  sd !! "shipment_id" = Some id ->
  sd !! "destination" = Some dest ->
  clearance (Some c) = (l, msg, n, loc) ->
  let i' :=
    latest (default [] (head (tail (tail (tail late)))))
      (latest (default [] (head (tail (tail late))))
         (latest (default [] (head (tail late)))
            (latest (default [] (head late))
               {| resolution_choice := Some c |}))) in
  exists w',
    exec (run sd)
      (start (Valid s) (signal_after at_issue_detected c ++ late)) =
      Completed (run_result id (resolution_choice i')) w'
    ∧ this w' = i'
    ∧ shipments_json w' = Valid (store_delivered sd id dest loc s)
    ∧ invocations (journal w') = lifecycle_calls sd id dest loc
    ∧ timers (journal w') = [3; 3; 2; n; 3].
Proof.
  intros Hid Hdest Hc i'. subst i'.
  change (signal_after at_issue_detected c ++ late)
    with ([] :: [] :: [] :: [] :: [] :: [] :: [] :: [c] :: late).
  unfold run, Workflow.getitem. rewrite Hid. simpl.
  wf_steps Hid Hdest. signals_known.
  rewrite exec_wait. world_fields. rewrite await_first by done.
  signals_known.
  wf_steps Hid Hdest.
  rewrite resolution_arm. cbn [resolution_choice]. rewrite Hc.
  unfold clear_customs, deliver. simpl.
  wf_steps Hid Hdest.
  unfold exec. eexists. split; [reflexivity|].
  world_fields. repeat split; read_journal; signals_known; reflexivity.
Qed.

(** A run that is signalled [c] once, while it waits at "Issue Detected". *)
Lemma run_resolved sd id dest s c l msg n loc :
  sd !! "shipment_id" = Some id ->
  sd !! "destination" = Some dest ->
  clearance (Some c) = (l, msg, n, loc) ->
  exists w',
    exec (run sd) (start (Valid s) (signal_after at_issue_detected c)) =
      Completed (run_result id (Some c)) w'
    ∧ shipments_json w' = Valid (store_delivered sd id dest loc s)
    ∧ invocations (journal w') = lifecycle_calls sd id dest loc
    ∧ timers (journal w') = [3; 3; 2; n; 3]
    ∧ logged (journal w') =
        [(INFO, "Starting shipment lifecycle for " +:+ py_str id);
         (INFO, py_str id +:+ ": Simulating travel time...");
         (INFO, py_str id +:+ ": Continuing journey...");
         (INFO, py_str id +:+ ": Issue detected at customs!");
         (INFO, py_str id +:+ ": Waiting for resolution signal...");
         (INFO, "Received resolution signal with choice: " +:+ c);
         (INFO, py_str id +:+ ": Received resolution choice: " +:+ c);
         (l, py_str id +:+ msg);
         (INFO, py_str id +:+ ": Out for delivery...");
         (INFO, py_str id +:+ ": Shipment lifecycle complete!")].
Proof.
  intros Hid Hdest Hc.
  change (signal_after at_issue_detected c)
    with [[]; []; []; []; []; []; []; [c]].
  unfold run, Workflow.getitem. rewrite Hid. simpl.
  wf_steps Hid Hdest. signals_known.
  rewrite exec_wait. world_fields. rewrite await_first by done.
  signals_known.
  wf_steps Hid Hdest.
  rewrite resolution_arm. cbn [resolution_choice]. rewrite Hc.
  unfold clear_customs, deliver. simpl.
  wf_steps Hid Hdest. signals_known.
  unfold exec. eexists. split; [reflexivity|].
  world_fields. repeat split; read_journal; reflexivity.
Qed.

(* ===================================================================== *)
(* The store does not steer the workflow                                 *)
(* ===================================================================== *)

Section StoreBlind.
Implicit Types (w : world) (s : store).

(** On a readable file an activity answers the same whatever the store
    holds, and leaves a readable file. *)
Lemma run_activity_blind a s1 s2 :
  snd (run_activity a (Valid s1)) = snd (run_activity a (Valid s2))
  ∧ exists s1' s2',
      fst (run_activity a (Valid s1)) = Valid s1'
      ∧ fst (run_activity a (Valid s2)) = Valid s2'.
Proof.
  destruct a as [sd|id st loc iss]; simpl.
  - unfold create_shipment_record.
    destruct (sd !! "shipment_id"); simpl; eauto.
  - unfold update_shipment_status. simpl. eauto.
Qed.

Lemma same_but_store_record e w1 w2 :
  same_but_store w1 w2 -> same_but_store (record e w1) (record e w2).
Proof.
  intros (Hf & Ht & Hi & Hj). unfold same_but_store, record.
  cbn [shipments_json this journal incoming].
  by rewrite !map_app, Hj.
Qed.

Lemma same_but_store_handle_all signals w1 w2 :
  same_but_store w1 w2 ->
  same_but_store (handle_all signals w1) (handle_all signals w2).
Proof.
  intros (Hf & Ht & Hi & Hj). rewrite !handle_all_eq.
  unfold same_but_store. cbn [shipments_json this journal incoming].
  by rewrite !map_app, Hj, Ht.
Qed.

Lemma same_but_store_resume w1 w2 :
  same_but_store w1 w2 -> same_but_store (resume w1) (resume w2).
Proof.
  intros (Hf & Ht & Hi & Hj). rewrite !resume_eq.
  unfold same_but_store. cbn [shipments_json this journal incoming].
  by rewrite !map_app, Hj, Ht, Hi.
Qed.

Lemma await_blind cond sched w1 w2 :
  same_but_store w1 w2 ->
  fst (await cond sched w1) = fst (await cond sched w2)
  ∧ same_but_store (snd (await cond sched w1)) (snd (await cond sched w2)).
Proof.
  revert w1 w2. induction sched as [|signals sched IH]; intros w1 w2 H.
  - simpl. destruct H as (Hf & Ht & Hi & Hj). rewrite Ht.
    destruct (cond (this w2)); simpl; repeat split; done.
  - simpl. pose proof H as (Hf & Ht & Hi & Hj). rewrite Ht.
    destruct (cond (this w2)); simpl.
    + repeat split; done.
    + by apply IH, same_but_store_handle_all.
Qed.

(** Any workflow, not only [run]: started in worlds that differ in the
    store only, it goes the same way. *)
Lemma exec_blind {R} (p : wf R) w1 w2 :
  same_but_store w1 w2 -> same_run (exec p w1) (exec p w2).
Proof.
  revert w1 w2.
  induction p as [r|e|l msg k IH|a t k IH|n k IH|cond k IH|k IH];
    intros w1 w2 H.
  - done.
  - done.
  - rewrite !exec_logger. by apply IH, same_but_store_record.
  - unfold exec; simpl; fold (@exec R).
    pose proof H as ([s1 [s2 [E1 E2]]] & Ht & Hi & Hj). rewrite E1, E2.
    destruct (run_activity_blind a s1 s2) as (Hr & s1' & s2' & F1 & F2).
    destruct (run_activity a (Valid s1)) as [f1 r1].
    destruct (run_activity a (Valid s2)) as [f2 r2].
    simpl in *. subst f1 f2 r2.
    destruct r1 as [v|e]; [|done].
    apply IH, same_but_store_resume.
    unfold same_but_store, completed.
    cbn [shipments_json this journal incoming].
    rewrite !map_app, Hj. eauto 10.
  - rewrite !exec_sleep.
    by apply IH, same_but_store_resume, same_but_store_record.
  - rewrite !exec_wait.
    pose proof H as (Hf & Ht & Hi & Hj). rewrite Hi.
    destruct (await_blind cond (incoming w2) w1 w2 H) as [Hb Hw].
    destruct (await cond (incoming w2) w1) as [b1 w1'].
    destruct (await cond (incoming w2) w2) as [b2 w2'].
    simpl in *. subst b2. destruct b1; [by apply IH|done].
  - rewrite !exec_self. pose proof H as (Hf & Ht & Hi & Hj).
    rewrite Ht. by apply IH.
Qed.

Lemma invocations_forget j :
  invocations (map forget_written j) = invocations j.
Proof.
  unfold invocations. induction j as [|e j IH]; [done|].
  destruct e; simpl; try done. by f_equal.
Qed.

Lemma same_run_final {R} (o1 o2 : outcome R) :
  same_run o1 o2 ->
  answer o1 = answer o2
  ∧ invocations (journal (final o1)) = invocations (journal (final o2)).
Proof.
  assert (forall w1 w2, same_but_store w1 w2 ->
            invocations (journal w1) = invocations (journal w2)) as Hinv.
  { intros w1 w2 (_ & _ & _ & Hj).
    by rewrite <- (invocations_forget (journal w1)), Hj,
      invocations_forget. }
  destruct o1, o2; simpl; try done.
  - intros [-> H]. eauto.
  - intros [-> H]. eauto.
  - intros (-> & -> & H). eauto.
  - eauto.
Qed.
End StoreBlind.

(* ===================================================================== *)
(* The resolution                                                        *)
(* ===================================================================== *)

Lemma table_label_cases choice label :
  table_label choice = Some label ->
  (choice = "expedite" ∧ label = "Express Service")
  ∨ (choice = "bribe_official" ∧ label = "Expedited Processing")
  ∨ (choice = "reroute" ∧ label = "Alternative Port")
  ∨ (choice = "wait" ∧ label = "Standard Processing").
Proof.
  unfold table_label.
  repeat (match goal with
          | |- context [String.eqb ?a ?b] =>
              destruct (String.eqb_spec a b) as [->|?]
          end; [intros [= <-]; tauto|]).
  done.
Qed.

Lemma table_label_none choice :
  table_label choice = None ->
  clearance (Some choice) =
    (WARNING, ": Unknown choice, defaulting to standard processing", 6,
     "Customs cleared").
Proof.
  unfold table_label, clearance.
  repeat (match goal with
          | |- context [String.eqb ?a ?b] =>
              destruct (String.eqb_spec a b) as [->|?]
          end; [done|]).
  intros _. rewrite !bool_decide_eq_false_2; [done|congruence..].
Qed.

Lemma cleared_customs_location_calls j sd id dest loc :
  invocations j = lifecycle_calls sd id dest loc ->
  cleared_customs_location j = Some (loc +:+ " - " +:+ py_str dest).
Proof. unfold cleared_customs_location. by intros ->. Qed.

(** C1.  For a payload with a shipment id and a destination and each of
    the four recognized choices: the run that is signalled the choice
    while it waits at "Issue Detected" completes, returns status
    "Delivered" with that choice as resolution, and its "Cleared Customs"
    update carries, in parentheses, the label the resolution table gives
    the choice. *)
Theorem recognized_choice_delivered (sd : dict) (id dest : pyval) (s : store)
    (choice label : string) :
  sd !! "shipment_id" = Some id ->
  sd !! "destination" = Some dest ->
  table_label choice = Some label ->
  exists w' before,
    exec (run sd) (start (Valid s) (signal_after at_issue_detected choice)) =
      Completed (run_result id (Some choice)) w'
    ∧ run_result id (Some choice) !! "status" = Some (PStr "Delivered")
    ∧ run_result id (Some choice) !! "resolution" = Some (PStr choice)
    ∧ cleared_customs_location (journal w') =
        Some (before +:+ "(" +:+ label +:+ ") - " +:+ py_str dest).
Proof.
  intros Hid Hdest Hlabel.
  apply table_label_cases in Hlabel
    as [[-> ->]|[[-> ->]|[[-> ->]|[-> ->]]]].
  - destruct (run_resolved sd id dest s "expedite" _ _ _ _ Hid Hdest eq_refl)
      as (w' & Hrun & _ & Hcalls & _).
    exists w', "Customs cleared ". split; [done|]. do 2 (split; [done|]).
    by rewrite (cleared_customs_location_calls _ _ _ _ _ Hcalls).
  - destruct (run_resolved sd id dest s "bribe_official" _ _ _ _ Hid Hdest
                eq_refl) as (w' & Hrun & _ & Hcalls & _).
    exists w', "Customs cleared ". split; [done|]. do 2 (split; [done|]).
    by rewrite (cleared_customs_location_calls _ _ _ _ _ Hcalls).
  - destruct (run_resolved sd id dest s "reroute" _ _ _ _ Hid Hdest eq_refl)
      as (w' & Hrun & _ & Hcalls & _).
    exists w', "Rerouted and cleared ". split; [done|].
    do 2 (split; [done|]).
    by rewrite (cleared_customs_location_calls _ _ _ _ _ Hcalls).
  - destruct (run_resolved sd id dest s "wait" _ _ _ _ Hid Hdest eq_refl)
      as (w' & Hrun & _ & Hcalls & _).
    exists w', "Customs cleared ". split; [done|]. do 2 (split; [done|]).
    by rewrite (cleared_customs_location_calls _ _ _ _ _ Hcalls).
Qed.

(** C1, at a shipment made by the HTTP layer that is rerouted. *)
Lemma recognized_choice_delivered_witness :
  exists w' before,
    exec (run Example.payload)
      (start (Valid ∅) (signal_after at_issue_detected "reroute")) =
      Completed (run_result (PStr "SHP-1") (Some "reroute")) w'
    ∧ run_result (PStr "SHP-1") (Some "reroute") !! "status" =
        Some (PStr "Delivered")
    ∧ run_result (PStr "SHP-1") (Some "reroute") !! "resolution" =
        Some (PStr "reroute")
    ∧ cleared_customs_location (journal w') =
        Some (before +:+ "(" +:+ "Alternative Port" +:+ ") - " +:+ "Rotterdam").
Proof.
  apply (recognized_choice_delivered Example.payload (PStr "SHP-1")
           (PStr "Rotterdam") ∅ "reroute" "Alternative Port");
    reflexivity.
Defined.

(** C2, as the specification has it, fails: a shipment resolved with
    "sabotage" is cleared with no label at all, not with the label of
    "wait". *)
Lemma unrecognized_choice_has_no_label :
  let location choice :=
    cleared_customs_location
      (journal (final (exec (run Example.payload)
                         (start (Valid ∅)
                            (signal_after at_issue_detected choice))))) in
  location "sabotage" = Some "Customs cleared - Rotterdam"
  ∧ location "wait" = Some "Customs cleared (Standard Processing) - Rotterdam"
  ∧ location "sabotage" ≠ location "wait".
Proof. vm_compute. repeat split. discriminate. Qed.

(** C2, amended.  For a payload with a shipment id and a destination and a
    choice outside the four: the run completes with status "Delivered"
    and the choice as resolution; it sleeps as long as a run resolved with
    "wait"; it logs the warning and nothing at error level; and its
    "Cleared Customs" location is "Customs cleared - <destination>",
    without a label. *)
Theorem unrecognized_choice_delivered (sd : dict) (id dest : pyval)
    (s : store) (choice : string) :
  sd !! "shipment_id" = Some id ->
  sd !! "destination" = Some dest ->
  table_label choice = None ->
  exists w',
    exec (run sd) (start (Valid s) (signal_after at_issue_detected choice)) =
      Completed (run_result id (Some choice)) w'
    ∧ run_result id (Some choice) !! "status" = Some (PStr "Delivered")
    ∧ run_result id (Some choice) !! "resolution" = Some (PStr choice)
    ∧ timers (journal w') =
        timers (journal (final (exec (run sd)
                                  (start (Valid s)
                                     (signal_after at_issue_detected
                                        "wait")))))
    ∧ (WARNING,
       py_str id +:+ ": Unknown choice, defaulting to standard processing")
        ∈ logged (journal w')
    ∧ (forall l msg, (l, msg) ∈ logged (journal w') -> l ≠ ERROR)
    ∧ cleared_customs_location (journal w') =
        Some ("Customs cleared - " +:+ py_str dest).
Proof.
  intros Hid Hdest Hnone.
  destruct (run_resolved sd id dest s choice _ _ _ _ Hid Hdest
              (table_label_none _ Hnone))
    as (w' & Hrun & _ & Hcalls & Htimers & Hlogged).
  destruct (run_resolved sd id dest s "wait" _ _ _ _ Hid Hdest eq_refl)
    as (ww & Hwait & _ & _ & Hwtimers & _).
  exists w'. split; [done|]. do 2 (split; [done|]).
  rewrite Hwait. simpl. rewrite Htimers, Hwtimers, Hlogged.
  split; [done|]. split; [|split].
  - rewrite !elem_of_cons. tauto.
  - intros l msg Hin ->. rewrite !elem_of_cons, elem_of_nil in Hin.
    repeat destruct Hin as [[=]|Hin]. done.
  - by rewrite (cleared_customs_location_calls _ _ _ _ _ Hcalls).
Qed.

(** C2 amended, at a shipment resolved with "sabotage". *)
Lemma unrecognized_choice_delivered_witness :
  table_label "sabotage" = None
  ∧ exists w',
      exec (run Example.payload)
        (start (Valid ∅) (signal_after at_issue_detected "sabotage")) =
        Completed (run_result (PStr "SHP-1") (Some "sabotage")) w'
      ∧ (WARNING,
         "SHP-1: Unknown choice, defaulting to standard processing")
          ∈ logged (journal w')
      ∧ cleared_customs_location (journal w') =
          Some "Customs cleared - Rotterdam".
Proof.
  split; [reflexivity|].
  destruct (unrecognized_choice_delivered Example.payload (PStr "SHP-1")
              (PStr "Rotterdam") ∅ "sabotage" eq_refl eq_refl eq_refl)
    as (w' & Hrun & _ & _ & _ & Hwarn & _ & Hloc).
  exists w'. split; [exact Hrun|]. split; [exact Hwarn|exact Hloc].
Defined.

(* ===================================================================== *)
(* The signal path of the HTTP layer                                     *)
(* ===================================================================== *)

(** C3, as the specification has it, fails: the endpoint that forwards
    the signal rejects "sabotage" with status 400 and sends nothing to the
    workflow. *)
Lemma resolve_rejects_sabotage :
  let service : Api.Mailbox.service := {["SHP-1" := []]} in
  Api.resolve_shipment_issue _ Api.Mailbox.signal "SHP-1" "sabotage" service =
    (service,
     Raised (HTTPException 400
               ("Invalid choice. Must be one of: " +:+
                "expedite, wait, bribe_official, reroute")))
  ∧ Api.resolve_shipment_issue _ Api.Mailbox.signal "SHP-1" "wait" service =
      ({["SHP-1" := ["wait"]]},
       Returned (list_to_map
                   [("message", PStr "Resolution signal sent to workflow");
                    ("shipment_id", PStr "SHP-1");
                    ("choice", PStr "wait")])).
Proof. split; vm_compute; reflexivity. Qed.

(** C3, amended.  On the signal path through the HTTP layer exactly the
    four recognized choices are accepted: whatever the orchestration
    service does, any other choice is answered with status 400 and the
    list of valid choices, and the service is not called. *)
Theorem resolve_rejects_unrecognized_choice (service : Type)
    (signal : string -> string -> service -> Api.rpc service)
    (shipment_id choice : string) (s : service) :
  choice ∉ Api.valid_choices ->
  Api.resolve_shipment_issue service signal shipment_id choice s =
    (s, Raised (HTTPException 400
                  ("Invalid choice. Must be one of: " +:+
                   "expedite, wait, bribe_official, reroute"))).
Proof.
  intros Hnot. unfold Api.resolve_shipment_issue.
  by rewrite bool_decide_eq_false_2.
Qed.

(** C3 amended, at "sabotage". *)
Lemma resolve_rejects_unrecognized_choice_witness :
  ("sabotage" ∉ Api.valid_choices)
  ∧ Api.resolve_shipment_issue _ Api.Mailbox.signal "SHP-1" "sabotage"
      {["SHP-1" := []]} =
      ({["SHP-1" := []]},
       Raised (HTTPException 400
                 ("Invalid choice. Must be one of: " +:+
                  "expedite, wait, bribe_official, reroute"))).
Proof.
  assert ("sabotage" ∉ Api.valid_choices)
    as Hnot by (apply (bool_decide_unpack _); vm_compute; exact I).
  split; [exact Hnot|].
  exact (resolve_rejects_unrecognized_choice _ Api.Mailbox.signal "SHP-1"
           "sabotage" {["SHP-1" := []]} Hnot).
Defined.

(* ===================================================================== *)
(* Unknown shipment ids                                                  *)
(* ===================================================================== *)

(** C8, as the specification has it, fails: a status update for an id the
    store does not hold returns as for a known one and raises nothing. *)
Lemma update_of_unknown_id_succeeds :
  update_shipment_status (PStr "SHP-404") "Delivered" None None (Valid ∅) =
    (Valid ∅,
     Returned (<["status" := PStr "Delivered"]>
                 {["shipment_id" := PStr "SHP-404"]}))
  ∧ ~ exists e,
        snd (update_shipment_status (PStr "SHP-404") "Delivered" None None
               (Valid ∅)) = Raised e.
Proof. split; [reflexivity|]. intros [e [=]]. Qed.

(** C8, amended.  For an id the store does not hold: the query raises the
    404 error that names the id; the status update leaves the store as it
    is and returns the same dict as for a known id. *)
Theorem unknown_shipment_id (shipments : store) (sid status : string)
    (current_location issue_details : option string) :
  shipments !! sid = None ->
  Api.get_shipment sid (Valid shipments) =
    Raised (HTTPException 404 ("Shipment " +:+ sid +:+ " not found"))
  ∧ update_shipment_status (PStr sid) status current_location issue_details
      (Valid shipments) =
      (Valid shipments,
       Returned (<["status" := PStr status]>
                   {["shipment_id" := PStr sid]})).
Proof.
  intros E. unfold Api.get_shipment, update_shipment_status. simpl.
  rewrite E. by rewrite update_shipments_absent.
Qed.

(** C8 amended, on the empty store. *)
Lemma unknown_shipment_id_witness :
  Api.get_shipment "SHP-404" (Valid ∅) =
    Raised (HTTPException 404 "Shipment SHP-404 not found")
  ∧ update_shipment_status (PStr "SHP-404") "Delivered" None None (Valid ∅) =
      (Valid ∅,
       Returned (<["status" := PStr "Delivered"]>
                   {["shipment_id" := PStr "SHP-404"]})).
Proof.
  apply (unknown_shipment_id ∅ "SHP-404" "Delivered" None None).
  reflexivity.
Defined.

(** C10, on a store with two shipments. *)
Lemma update_shipment_status_frame_witness :
  let r : dict := {["status" := PStr "Pending"; "origin" := PStr "Oslo"]} in
  let shipments : store := {["SHP-1" := r; "SHP-2" := r]} in
  exists r',
    fst (update_shipment_status (PStr "SHP-1") "In Transit" (Some "") None
           (Valid shipments)) = Valid (<["SHP-1" := r']> shipments)
    ∧ r' !! "current_location" = r !! "current_location"
    ∧ r' !! "issue_details" = r !! "issue_details"
    ∧ r' !! "origin" = r !! "origin"
    ∧ <["SHP-1" := r']> shipments !! "SHP-2" = shipments !! "SHP-2".
Proof.
  intros r shipments.
  destruct (update_shipment_status_frame shipments "SHP-1" r "In Transit"
              (Some "") None eq_refl)
    as (r' & Hf & Hloc & Hiss & Hother & Hrest).
  exists r'. split; [exact Hf|]. split; [apply Hloc; by right|].
  split; [by apply Hiss|]. split; [by apply Hother|by apply Hrest].
Defined.

(* ===================================================================== *)
(* What the store shows of a run                                         *)
(* ===================================================================== *)

(** The record of a shipment once its run has delivered it. *)
Lemma store_delivered_lookup sd sid dest loc s :
  store_delivered sd (PStr sid) dest loc s !! sid =
    Some (update_record "Delivered"
            (Some ("Delivered to " +:+ py_str dest)) None
            (update_record "Cleared Customs"
               (Some (loc +:+ " - " +:+ py_str dest)) None
               (update_record "Issue Detected"
                  (Some ("Customs checkpoint - " +:+ py_str dest))
                  (Some
                     "Documentation discrepancy found - requires manual review")
                  (update_record "At Customs"
                     (Some ("Customs checkpoint - " +:+ py_str dest)) None
                     (update_record "In Transit"
                        (Some ("En route to " +:+ py_str dest)) None sd))))).
Proof.
  unfold store_delivered, store_cleared, store_at_issue.
  rewrite !update_shipments_lookup. cbn [json_key].
  by rewrite lookup_insert_eq.
Qed.

(** The status of a shipment after each of the six activities. *)
Lemma lifecycle_statuses sd sid dest loc s :
  sd !! "status" = Some (PStr "Pending") ->
  map (status_in sid) (lifecycle_files sd (PStr sid) dest loc s) =
    [Some (PStr "Pending"); Some (PStr "In Transit");
     Some (PStr "At Customs"); Some (PStr "Issue Detected");
     Some (PStr "Cleared Customs"); Some (PStr "Delivered")].
Proof.
  intros Hpending.
  unfold lifecycle_files, store_delivered, store_cleared, store_at_issue.
  cbn [map status_in json_key].
  rewrite !update_shipments_lookup, lookup_insert_eq.
  cbn [fmap option_fmap option_map mbind option_bind].
  by rewrite Hpending, !update_record_status.
Qed.

(** C4, as the specification has it, fails: the record of a shipment
    delivered after "expedite" has status "Delivered" but no
    [resolutionChoice] field, nor one under the names the workflow uses
    for the choice. *)
Lemma delivered_record_lacks_choice :
  let w' :=
    final (exec (run Example.payload)
             (start (Valid ∅) (signal_after at_issue_detected "expedite"))) in
  match Api.get_shipment "SHP-1" (shipments_json w') with
  | Returned r =>
      r !! "status" = Some (PStr "Delivered")
      ∧ r !! "resolutionChoice" = None
      ∧ r !! "resolution_choice" = None
      ∧ r !! "resolution" = None
  | Raised _ => False
  end.
Proof. vm_compute. repeat split. Qed.

(** C4, amended.  For a payload whose shipment id is a string and that has
    a destination: after the run that is signalled "expedite" while it
    waits at "Issue Detected" has completed, the query of that id returns
    a record with status "Delivered" and location "Delivered to
    <destination>"; every field but status, location and issue details is
    as in the payload, so the record has a [resolutionChoice] only if the
    payload had one; the choice is in the result of the run, under
    "resolution". *)
Theorem delivered_shipment_query (sd : dict) (sid : string) (dest : pyval)
    (s : store) :
  sd !! "shipment_id" = Some (PStr sid) ->
  sd !! "destination" = Some dest ->
  exists w' r,
    exec (run sd)
      (start (Valid s) (signal_after at_issue_detected "expedite")) =
      Completed (run_result (PStr sid) (Some "expedite")) w'
    ∧ run_result (PStr sid) (Some "expedite") !! "resolution" =
        Some (PStr "expedite")
    ∧ Api.get_shipment sid (shipments_json w') = Returned r
    ∧ r !! "status" = Some (PStr "Delivered")
    ∧ r !! "current_location" = Some (PStr ("Delivered to " +:+ py_str dest))
    ∧ (forall k, k ≠ "status" -> k ≠ "current_location" ->
                 k ≠ "issue_details" -> r !! k = sd !! k).
Proof.
  intros Hid Hdest.
  destruct (run_resolved sd (PStr sid) dest s "expedite" _ _ _ _ Hid Hdest
              eq_refl) as (w' & Hrun & Hfile & _).
  eexists w', _. split; [exact Hrun|]. split; [done|].
  rewrite Hfile. unfold Api.get_shipment. cbn [json_load].
  rewrite store_delivered_lookup. split; [reflexivity|].
  split; [apply update_record_status|].
  split; [by rewrite update_record_location|].
  intros k ???. by rewrite !update_record_other.
Qed.

(** C4 amended, at a shipment made by the HTTP layer. *)
Lemma delivered_shipment_query_witness :
  exists w' r,
    exec (run Example.payload)
      (start (Valid ∅) (signal_after at_issue_detected "expedite")) =
      Completed (run_result (PStr "SHP-1") (Some "expedite")) w'
    ∧ Api.get_shipment "SHP-1" (shipments_json w') = Returned r
    ∧ r !! "status" = Some (PStr "Delivered")
    ∧ r !! "resolutionChoice" = None.
Proof.
  destruct (delivered_shipment_query Example.payload "SHP-1"
              (PStr "Rotterdam") ∅ eq_refl eq_refl)
    as (w' & r & Hrun & _ & Hget & Hstatus & _ & Hother).
  exists w', r. split; [exact Hrun|]. split; [exact Hget|].
  split; [exact Hstatus|]. by rewrite Hother.
Defined.

(** C5.  For a payload as the HTTP layer makes it (string id, a
    destination, status "Pending"), whatever is signalled and when: in
    every run that completes, the six activities leave the status of the
    shipment in the store as "Pending", "In Transit", "At Customs",
    "Issue Detected", "Cleared Customs", "Delivered", in this order, each
    written before the timer of the next stage fires. *)
Theorem persisted_status_sequence (sd : dict) (sid : string) (dest : pyval)
    (s : store) (sched : schedule) (res : dict) (w' : world) :
  sd !! "shipment_id" = Some (PStr sid) ->
  sd !! "destination" = Some dest ->
  sd !! "status" = Some (PStr "Pending") ->
  exec (run sd) (start (Valid s) sched) = Completed res w' ->
  persisted_statuses sid (journal w') =
    [Some (PStr "Pending"); Some (PStr "In Transit");
     Some (PStr "At Customs"); Some (PStr "Issue Detected");
     Some (PStr "Cleared Customs"); Some (PStr "Delivered")]
  ∧ exists n,
      steps sid (journal w') =
        [Persisted (Some (PStr "Pending")); Waited 3;
         Persisted (Some (PStr "In Transit")); Waited 3;
         Persisted (Some (PStr "At Customs")); Waited 2;
         Persisted (Some (PStr "Issue Detected")); Waited n;
         Persisted (Some (PStr "Cleared Customs")); Waited 3;
         Persisted (Some (PStr "Delivered"))].
Proof.
  intros Hid Hdest Hpending Hrun.
  destruct (run_completed_inv _ _ _ _ _ _ _ Hid Hdest Hrun)
    as (c & l & msg & n & loc & _ & _ & _ & _ & _ & Hsteps).
  destruct (Hsteps sid) as [Hp Hs].
  pose proof (lifecycle_statuses sd sid dest loc s Hpending) as Hst.
  split; [by rewrite Hp|].
  exists n. rewrite Hs.
  rewrite <- (map_map (status_in sid) Persisted), Hst. done.
Qed.

(** C5, at a shipment made by the HTTP layer that is signalled twice. *)
Lemma persisted_status_sequence_witness :
  let sched := [[]; ["reroute"]; []; []; []; []; []; []; ["wait"]] in
  let o := exec (run Example.payload) (start (Valid ∅) sched) in
  persisted_statuses "SHP-1" (journal (final o)) =
    [Some (PStr "Pending"); Some (PStr "In Transit");
     Some (PStr "At Customs"); Some (PStr "Issue Detected");
     Some (PStr "Cleared Customs"); Some (PStr "Delivered")].
Proof.
  intros sched o.
  refine (proj1 (persisted_status_sequence Example.payload "SHP-1"
                   (PStr "Rotterdam") ∅ sched
                   (run_result (PStr "SHP-1") (Some "wait")) (final o)
                   eq_refl eq_refl eq_refl _)).
  vm_compute. reflexivity.
Defined.

(* ===================================================================== *)
(* The recorded choice                                                   *)
(* ===================================================================== *)

(** Of the signals of the four suspensions that follow the resolution,
    the last one is what the instance holds in the end. *)
Lemma latest_after_resolution (first : string) (late : schedule) :
  resolution_choice
    (latest (default [] (head (tail (tail (tail late)))))
       (latest (default [] (head (tail (tail late))))
          (latest (default [] (head (tail late)))
             (latest (default [] (head late))
                {| resolution_choice := Some first |})))) =
  Some (default first (last (concat (take after_resolution late)))).
Proof.
  unfold latest, after_resolution.
  destruct late as [|b0 [|b1 [|b2 [|b3 rest]]]];
    cbn [head tail default Datatypes.id from_option resolution_choice last
         take concat];
    rewrite ?app_nil_r, ?last_app;
    repeat match goal with
           | |- context [last ?b] => destruct (last b)
           end; done.
Qed.

(** C6, as the specification has it, fails: a run resolved with "expedite"
    that is signalled "wait" while it sleeps afterwards is cleared by the
    express service and yet holds, and returns, "wait". *)
Lemma second_signal_overwrites_choice :
  let o :=
    exec (run Example.payload)
      (start (Valid ∅)
         (signal_after at_issue_detected "expedite" ++ [["wait"]])) in
  cleared_customs_location (journal (final o)) =
    Some "Customs cleared (Express Service) - Rotterdam"
  ∧ resolution_choice (this (final o)) = Some "wait"
  ∧ answer o = Some (run_result (PStr "SHP-1") (Some "wait")).
Proof. vm_compute. repeat split. Qed.

(** C6, amended.  The handler assigns the choice of every signal it gets,
    so a recorded choice is replaced by each later signal: for a payload
    with a shipment id and a destination, a run signalled [first] while it
    waits at "Issue Detected" and then whatever else completes holding,
    and returning as resolution, the last choice signalled during the four
    suspensions that were left, and [first] only if there was none. *)
Theorem later_signal_replaces_choice (sd : dict) (id dest : pyval)
    (s : store) (first : string) (late : schedule) :
  sd !! "shipment_id" = Some id ->
  sd !! "destination" = Some dest ->
  (forall choice w,
     resolution_choice (this (handle_resolution choice w)) = Some choice)
  ∧ exists w',
      let held := default first (last (concat (take after_resolution late))) in
      exec (run sd)
        (start (Valid s) (signal_after at_issue_detected first ++ late)) =
        Completed (run_result id (Some held)) w'
      ∧ resolution_choice (this w') = Some held.
Proof.
  intros Hid Hdest. split; [done|].
  destruct (clearance (Some first)) as [[[l msg] n] loc] eqn:Hc.
  destruct (run_resolved_then sd id dest s first late _ _ _ _ Hid Hdest Hc)
    as (w' & Hrun & Hthis & _).
  exists w'. cbn zeta. rewrite Hrun, Hthis.
  by rewrite latest_after_resolution.
Qed.

(** C6 amended, at a run signalled "expedite" and then "wait". *)
Lemma later_signal_replaces_choice_witness :
  exists w',
    exec (run Example.payload)
      (start (Valid ∅)
         (signal_after at_issue_detected "expedite" ++ [["wait"]])) =
      Completed (run_result (PStr "SHP-1") (Some "wait")) w'
    ∧ resolution_choice (this w') = Some "wait".
Proof.
  exact (proj2 (later_signal_replaces_choice Example.payload (PStr "SHP-1")
                  (PStr "Rotterdam") ∅ "expedite" [["wait"]]
                  eq_refl eq_refl)).
Defined.

(* ===================================================================== *)
(* Determinism                                                           *)
(* ===================================================================== *)

(** C9.  Two runs on the same payload that are sent the same signals at
    the same suspensions call the same activities with the same arguments
    in the same order and end the same way, with the same result if they
    return, whatever the store held when each of them started. *)
Theorem run_deterministic (sd : dict) (sched : schedule) (s1 s2 : store) :
  let o1 := exec (run sd) (start (Valid s1) sched) in
  let o2 := exec (run sd) (start (Valid s2) sched) in
  same_run o1 o2
  ∧ invocations (journal (final o1)) = invocations (journal (final o2))
  ∧ answer o1 = answer o2.
Proof.
  intros o1 o2.
  assert (same_run o1 o2) as H.
  { apply exec_blind. unfold same_but_store, start. simpl. eauto 10. }
  split; [done|]. by destruct (same_run_final _ _ H).
Qed.

(* ===================================================================== *)
(* More on the activities and the queries                                *)
(* ===================================================================== *)

(** X1.  An activity that raises has not written; one that returns found a
    readable file and leaves a readable file. *)
Theorem activity_raises_or_writes (a : activity) (f : file) :
  match run_activity a f with
  | (f', Raised _) => f' = f
  | (f', Returned _) =>
      exists shipments shipments', f = Valid shipments ∧ f' = Valid shipments'
  end.
Proof.
  destruct a as [sd|id st loc iss]; simpl.
  - unfold create_shipment_record.
    destruct (sd !! "shipment_id"); [|done].
    destruct f; simpl; eauto.
  - unfold update_shipment_status. destruct f; simpl; eauto.
Qed.

(** X2.  What [create_shipment_record] stores under a string id is what
    [get_shipment] answers for that id; the answers for all other ids
    stay as they were. *)
Theorem create_then_get (sd : dict) (sid : string) (shipments : store) :
  sd !! "shipment_id" = Some (PStr sid) ->
  let f' := fst (create_shipment_record sd (Valid shipments)) in
  Api.get_shipment sid f' = Returned sd
  ∧ forall sid', sid' ≠ sid ->
      Api.get_shipment sid' f' = Api.get_shipment sid' (Valid shipments).
Proof.
  intros Hid. unfold create_shipment_record. rewrite Hid. simpl.
  unfold Api.get_shipment. simpl. split.
  - by rewrite lookup_insert_eq.
  - intros sid' Hne. by rewrite lookup_insert_ne.
Qed.

(** X2, at an instance. *)
Lemma create_then_get_witness :
  Api.get_shipment "SHP-1"
    (fst (create_shipment_record Example.payload (Valid ∅))) =
    Returned Example.payload.
Proof.
  exact (proj1 (create_then_get Example.payload "SHP-1" ∅ eq_refl)).
Defined.

(** X3.  After a status update of a shipment the store holds, [get_shipment]
    answers a record with the new status, with the new location if one
    was given that is not empty, and with the new issue details if some
    were given. *)
Theorem update_then_get (shipments : store) (sid : string) (r : dict)
    (status : string) (current_location issue_details : option string) :
  shipments !! sid = Some r ->
  exists r',
    Api.get_shipment sid
      (fst (update_shipment_status (PStr sid) status current_location
              issue_details (Valid shipments))) = Returned r'
    ∧ r' !! "status" = Some (PStr status)
    ∧ (forall loc, current_location = Some loc -> loc ≠ "" ->
         r' !! "current_location" = Some (PStr loc))
    ∧ (forall d, issue_details = Some d ->
         r' !! "issue_details" = Some (PStr d)).
Proof.
  intros E. exists (update_record status current_location issue_details r).
  unfold update_shipment_status, Api.get_shipment. cbn [json_load fst].
  rewrite (update_shipments_found _ _ _ _ _ _ E), lookup_insert_eq.
  split; [done|].
  split; [apply update_record_status|]. split.
  - intros loc -> Hne. rewrite update_record_location. simpl.
    by destruct (String.eqb_spec loc "").
  - intros d ->. by rewrite update_record_issue.
Qed.

(** X3, at an instance. *)
Lemma update_then_get_witness :
  exists r',
    Api.get_shipment "SHP-1"
      (fst (update_shipment_status (PStr "SHP-1") "At Customs"
              (Some "Customs checkpoint - Rotterdam") None
              (Valid ({["SHP-1" := Example.payload]} : store)))) =
      Returned r'
    ∧ r' !! "status" = Some (PStr "At Customs")
    ∧ r' !! "current_location" =
        Some (PStr "Customs checkpoint - Rotterdam").
Proof.
  assert (({["SHP-1" := Example.payload]} : store) !! "SHP-1" =
          Some Example.payload) as E by reflexivity.
  destruct (update_then_get _ "SHP-1" Example.payload "At Customs"
              (Some "Customs checkpoint - Rotterdam") None E)
    as (r' & Hget & Hstatus & Hloc & _).
  exists r'. split; [exact Hget|]. split; [exact Hstatus|].
  by apply Hloc.
Defined.

(** X4.  A status update neither adds nor removes a shipment: whatever its
    arguments, the store holds the same ids afterwards. *)
Theorem update_keeps_ids (shipment_id : pyval) (status : string)
    (current_location issue_details : option string) (shipments : store) :
  exists shipments',
    fst (update_shipment_status shipment_id status current_location
           issue_details (Valid shipments)) = Valid shipments'
    ∧ dom shipments' = dom shipments.
Proof.
  eexists. split; [reflexivity|].
  unfold update_shipments.
  destruct shipment_id as [| | |sid]; try done.
  destruct (shipments !! sid) as [r|] eqn:E; [|done].
  apply dom_insert_lookup_L. eauto.
Qed.

(** X5.  The two queries agree: [get_shipment] answers a record exactly when
    [get_all_shipments] lists it under that id, and it fails with status
    500 exactly when the listing fails, with the same detail. *)
Theorem get_shipment_agrees_with_listing (sid : string) (f : file) :
  (forall r,
     Api.get_shipment sid f = Returned r ↔
     exists all, Api.get_all_shipments f = Returned all ∧ all !! sid = Some r)
  ∧ (forall detail,
       Api.get_shipment sid f = Raised (HTTPException 500 detail) ↔
       Api.get_all_shipments f = Raised (HTTPException 500 detail)).
Proof.
  unfold Api.get_shipment, Api.get_all_shipments.
  destruct f as [| |shipments]; simpl.
  - split; [intros r; split; [done|by intros (? & ? & ?)]|].
    intros detail; split; intros [= <-]; reflexivity.
  - split; [intros r; split; [done|by intros (? & ? & ?)]|].
    intros detail; split; intros [= <-]; reflexivity.
  - split.
    + intros r. destruct (shipments !! sid) as [r0|] eqn:E; split.
      * intros [= <-]. eauto.
      * intros (all & [= <-] & H). congruence.
      * done.
      * intros (all & [= <-] & H). congruence.
    + intros detail. destruct (shipments !! sid); split; intros [=].
Qed.

(* ===================================================================== *)
(* Runs that do not get through                                          *)
(* ===================================================================== *)

(** X6.  A payload without a shipment id: [run] raises [KeyError] on its first
    line, in whatever state it was started, before any log line, timer or
    activity. *)
Theorem run_without_shipment_id (sd : dict) (w : world) :
  sd !! "shipment_id" = None ->
  exec (run sd) w = WorkflowRaised (KeyError "shipment_id") w.
Proof. intros E. unfold run, Workflow.getitem. by rewrite E. Qed.

(** X6, at an instance. *)
Lemma run_without_shipment_id_witness :
  exec (run ∅) (start (Valid ∅) []) =
    WorkflowRaised (KeyError "shipment_id") (start (Valid ∅) []).
Proof. apply run_without_shipment_id. reflexivity. Defined.

(** X7.  A payload with a shipment id but no destination, on a readable store:
    whatever is signalled, [run] creates the record, sleeps three seconds
    and then raises [KeyError] where it builds the first location; the
    record stays as created and no status update is ever issued. *)
Theorem run_without_destination (sd : dict) (id : pyval) (s : store)
    (sched : schedule) :
  sd !! "shipment_id" = Some id ->
  sd !! "destination" = None ->
  exists w',
    exec (run sd) (start (Valid s) sched) =
      WorkflowRaised (KeyError "destination") w'
    ∧ shipments_json w' = Valid (<[json_key id := sd]> s)
    ∧ invocations (journal w') = [CreateShipmentRecord sd]
    ∧ timers (journal w') = [3].
Proof.
  intros Hid Hdest. unfold run, Workflow.getitem. rewrite Hid. simpl.
  wf_steps Hid Hdest. unfold exec.
  eexists. split; [reflexivity|]. world_fields.
  repeat split; read_journal; reflexivity.
Qed.

(** X7, at an instance. *)
Lemma run_without_destination_witness :
  exists w',
    exec (run {["shipment_id" := PStr "SHP-1"]}) (start (Valid ∅) []) =
      WorkflowRaised (KeyError "destination") w'
    ∧ shipments_json w' =
        Valid {["SHP-1" := {["shipment_id" := PStr "SHP-1"]}]}
    ∧ invocations (journal w') =
        [CreateShipmentRecord {["shipment_id" := PStr "SHP-1"]}]
    ∧ timers (journal w') = [3].
Proof.
  apply (run_without_destination {["shipment_id" := PStr "SHP-1"]}
           (PStr "SHP-1") ∅ []); reflexivity.
Defined.

(** X8.  On a store file that is absent or unreadable: the first activity
    raises the error of the read, and the run gets no further; it has
    logged its first line, the file is as it was, and no timer was
    started. *)
Theorem run_on_unreadable_file (sd : dict) (id : pyval) (f : file) (e : exn)
    (sched : schedule) :
  sd !! "shipment_id" = Some id ->
  json_load f = Raised e ->
  exec (run sd) (start f sched) =
    ActivityFailing (CreateShipmentRecord sd) e
      {| shipments_json := f;
         this := init;
         journal :=
           [Logged INFO ("Starting shipment lifecycle for " +:+ py_str id)];
         incoming := sched |}.
Proof.
  intros Hid Hload. unfold run, Workflow.getitem. rewrite Hid. simpl.
  rewrite exec_logger. unfold exec. simpl.
  unfold create_shipment_record. by rewrite Hid, Hload.
Qed.

(** X8, at an instance. *)
Lemma run_on_unreadable_file_witness :
  exec (run Example.payload) (start Missing []) =
    ActivityFailing (CreateShipmentRecord Example.payload) FileNotFoundError
      {| shipments_json := Missing;
         this := init;
         journal := [Logged INFO "Starting shipment lifecycle for SHP-1"];
         incoming := [] |}.
Proof.
  apply (run_on_unreadable_file Example.payload (PStr "SHP-1") Missing
           FileNotFoundError []); reflexivity.
Defined.

(* ===================================================================== *)
(* Runs and the signals they get                                         *)
(* ===================================================================== *)

Lemma latest_some b i :
  resolution_choice (latest b i) ≠ None ↔ b ≠ [] ∨ resolution_choice i ≠ None.
Proof.
  unfold latest. cbn [resolution_choice].
  destruct (last b) as [c|] eqn:E; simpl.
  - split; [|done]. intros _. left. intros ->. done.
  - apply last_None in E as ->. split; [tauto|]. by intros [?|?].
Qed.

Lemma any_signal_step (sched : schedule) :
  Exists (fun b => b ≠ []) sched ↔
  default [] (head sched) ≠ [] ∨ Exists (fun b => b ≠ []) (tail sched).
Proof.
  destruct sched as [|b sched]; simpl.
  - rewrite Exists_nil. split; [done|]. by intros [?|?].
  - by rewrite Exists_cons.
Qed.

Lemma latest_resume_signalled (i : instance) (sched : schedule) :
  resolution_choice (latest (default [] (head sched)) i) ≠ None
  ∨ Exists (fun b => b ≠ []) (tail sched) ↔
  resolution_choice i ≠ None ∨ Exists (fun b => b ≠ []) sched.
Proof. rewrite latest_some, (any_signal_step sched). tauto. Qed.

(** The wait is over exactly when a choice is there or some signal is
    still to come. *)
Lemma await_signalled (sched : schedule) (w : world) :
  fst (await (fun i => bool_decide (resolution_choice i ≠ None)) sched w) =
    true ↔
  resolution_choice (this w) ≠ None ∨ Exists (fun b => b ≠ []) sched.
Proof.
  revert w. induction sched as [|b sched IH]; intros w; simpl.
  - destruct (bool_decide (resolution_choice (this w) ≠ None)) eqn:E; simpl.
    + apply bool_decide_eq_true in E. tauto.
    + apply bool_decide_eq_false in E. rewrite Exists_nil.
      split; [done|tauto].
  - destruct (bool_decide (resolution_choice (this w) ≠ None)) eqn:E; simpl.
    + apply bool_decide_eq_true in E. tauto.
    + apply bool_decide_eq_false in E.
      rewrite IH, handle_all_eq. cbn [this].
      rewrite latest_some, Exists_cons. tauto.
Qed.

Lemma await_cond cond sched w :
  cond (this (snd (await cond sched w))) = fst (await cond sched w).
Proof.
  revert w. induction sched as [|b sched IH]; intros w; simpl.
  - by destruct (cond (this w)) eqn:E.
  - destruct (cond (this w)) eqn:E; [done|apply IH].
Qed.

(** How a run on a readable store goes, for a payload with the two keys
    it reads: to the end if a signal ever comes, else up to the wait. *)
Lemma run_inv sd id dest s sched :
  sd !! "shipment_id" = Some id ->
  sd !! "destination" = Some dest ->
  let o := exec (run sd) (start (Valid s) sched) in
  (Exists (fun b => b ≠ []) sched ∧ exists res w', o = Completed res w')
  ∨ (¬ Exists (fun b => b ≠ []) sched
     ∧ exists w',
         o = Suspended w'
         ∧ shipments_json w' = Valid (store_at_issue sd id dest s)
         ∧ resolution_choice (this w') = None
         ∧ invocations (journal w') =
             [CreateShipmentRecord sd;
              UpdateShipmentStatus id "In Transit"
                (Some ("En route to " +:+ py_str dest)) None;
              UpdateShipmentStatus id "At Customs"
                (Some ("Customs checkpoint - " +:+ py_str dest)) None;
              UpdateShipmentStatus id "Issue Detected"
                (Some ("Customs checkpoint - " +:+ py_str dest))
                (Some
                   "Documentation discrepancy found - requires manual review")]
         ∧ timers (journal w') = [3; 3; 2]).
Proof.
  intros Hid Hdest o. subst o.
  pattern (exec (run sd) (start (Valid s) sched)).
  match goal with |- ?Q _ => remember Q as P eqn:HP end.
  unfold run, Workflow.getitem. rewrite Hid. simpl.
  wf_steps Hid Hdest.
  rewrite exec_wait.
  match goal with
  | |- context [await ?c ?i ?w] =>
      pose proof (await_signalled i w) as Hsig;
      pose proof (await_cond c i w) as Hcond;
      pose proof (await_inv c i w) as Hinv;
      destruct (await c i w) as [b w1]
  end.
  specialize (Hinv b w1 eq_refl) as (Hf & [signals Hj] & _).
  cbn [fst snd this shipments_json journal record] in Hsig, Hcond, Hf, Hj.
  rewrite !latest_resume_signalled in Hsig.
  assert (Exists (fun b => b ≠ []) sched ↔ b = true) as Hex.
  { rewrite Hsig. split; [tauto|]. intros [H|H]; [done|exact H]. }
  clear Hsig. destruct w1 as [f1 [o1] j1 inc1].
  cbn [shipments_json this journal resolution_choice] in Hf, Hj, Hcond.
  subst f1. destruct b.
  - apply bool_decide_eq_true in Hcond. destruct o1 as [c|]; [|done].
    wf_steps Hid Hdest.
    rewrite resolution_arm. cbn [resolution_choice].
    destruct (clearance (Some c)) as [[[l msg] n] loc].
    unfold clear_customs, deliver. simpl.
    wf_steps Hid Hdest.
    unfold exec. subst P. left. split; [by apply Hex|]. eauto.
  - apply bool_decide_eq_false in Hcond.
    subst P. right. split; [rewrite Hex; done|].
    eexists. split; [reflexivity|]. world_fields.
    split; [done|]. split; [by destruct o1; [exfalso; apply Hcond|]|].
    subst j1. split; read_journal; reflexivity.
Qed.

(** X9.  A run on a readable store, for a payload with the two keys it reads,
    returns exactly when some resolution signal reaches it, at whatever
    suspension. *)
Theorem run_completes_iff_signalled (sd : dict) (id dest : pyval) (s : store)
    (sched : schedule) :
  sd !! "shipment_id" = Some id ->
  sd !! "destination" = Some dest ->
  is_Some (answer (exec (run sd) (start (Valid s) sched))) ↔
  Exists (fun signals => signals ≠ []) sched.
Proof.
  intros Hid Hdest.
  destruct (run_inv sd id dest s sched Hid Hdest)
    as [[Hex (res & w' & ->)]|[Hnex (w' & -> & _)]]; simpl.
  - split; [done|eauto].
  - split; [by intros [? [=]]|done].
Qed.

(** X9, at an instance. *)
Lemma run_completes_iff_signalled_witness :
  is_Some (answer (exec (run Example.payload)
                     (start (Valid ∅) [[]; ["reroute"]]))) ↔
  Exists (fun signals => signals ≠ []) [[]; ["reroute"]].
Proof.
  apply (run_completes_iff_signalled Example.payload (PStr "SHP-1")
           (PStr "Rotterdam") ∅ [[]; ["reroute"]]); reflexivity.
Defined.

(** X10.  Without a resolution signal the run stays at the wait: for a payload
    with a string id and a destination, after exactly four activities,
    with the shipment at "Issue Detected" in the store, no choice
    recorded and no "Cleared Customs" update issued. *)
Theorem run_waits_without_signal (sd : dict) (sid : string) (dest : pyval)
    (s : store) (sched : schedule) :
  sd !! "shipment_id" = Some (PStr sid) ->
  sd !! "destination" = Some dest ->
  Forall (fun signals => signals = []) sched ->
  exists w',
    exec (run sd) (start (Valid s) sched) = Suspended w'
    ∧ status_in sid (shipments_json w') = Some (PStr "Issue Detected")
    ∧ resolution_choice (this w') = None
    ∧ length (invocations (journal w')) = 4
    ∧ cleared_customs_location (journal w') = None.
Proof.
  intros Hid Hdest Hnone.
  destruct (run_inv sd (PStr sid) dest s sched Hid Hdest)
    as [[Hex _]|[_ (w' & Hrun & Hfile & Hthis & Hcalls & _)]].
  - apply Exists_exists in Hex as (b & Hin & Hne).
    rewrite Forall_forall in Hnone. by apply Hnone in Hin.
  - exists w'. split; [done|]. rewrite Hfile.
    unfold cleared_customs_location. rewrite Hcalls.
    repeat split; try done.
    unfold store_at_issue, status_in.
    rewrite !update_shipments_lookup. cbn [json_key].
    rewrite lookup_insert_eq.
    cbn [fmap option_fmap option_map mbind option_bind].
    apply update_record_status.
Qed.

(** X10, at an instance. *)
Lemma run_waits_without_signal_witness :
  exists w',
    exec (run Example.payload) (start (Valid ∅) [[]; []]) = Suspended w'
    ∧ status_in "SHP-1" (shipments_json w') = Some (PStr "Issue Detected")
    ∧ resolution_choice (this w') = None
    ∧ length (invocations (journal w')) = 4
    ∧ cleared_customs_location (journal w') = None.
Proof.
  apply (run_waits_without_signal Example.payload "SHP-1" (PStr "Rotterdam")
           ∅ [[]; []]); [reflexivity|reflexivity|].
  repeat constructor.
Defined.

(** X11.  The payload [create_shipment] builds is one [run] can work on: on a
    readable store, whatever the request, the id and the signals, the run
    either returns or waits for the resolution; the workflow code never
    raises and no activity fails. *)
Theorem created_shipment_never_raises (shipment_id : string)
    (request : Api.CreateShipmentRequest) (s : store) (sched : schedule) :
  match exec (run (Api.shipment_data shipment_id request))
          (start (Valid s) sched) with
  | Completed _ _ | Suspended _ => True
  | WorkflowRaised _ _ | ActivityFailing _ _ _ => False
  end.
Proof.
  destruct (run_inv (Api.shipment_data shipment_id request)
              (PStr shipment_id) (PStr (Api.destination request)) s sched
              eq_refl eq_refl)
    as [[_ (res & w' & ->)]|[_ (w' & -> & _)]]; done.
Qed.

Lemma await_ready cond sched w :
  cond (this w) = true ->
  await cond sched w =
    (true, {| shipments_json := shipments_json w;
              this := this w;
              journal := journal w;
              incoming := sched |}).
Proof. intros H. destruct sched; simpl; by rewrite H. Qed.

(** The run on a schedule that is written out, up to its return. *)
Ltac run_through Hid Hdest Hc :=
  unfold signal_after; cbn [replicate app];
  unfold run, Workflow.getitem; rewrite Hid; simpl;
  wf_steps Hid Hdest; signals_known;
  rewrite exec_wait; world_fields;
  first [rewrite await_first by done | rewrite await_ready by done];
  signals_known;
  wf_steps Hid Hdest;
  rewrite resolution_arm; cbn [resolution_choice]; rewrite Hc;
  unfold clear_customs, deliver; simpl;
  wf_steps Hid Hdest; signals_known;
  unfold exec; eexists; split; [reflexivity|];
  world_fields; read_journal; reflexivity.

(** X12.  A resolution signal that comes before the run waits for it is not
    lost: for a payload with a shipment id and a destination, signalled
    once during any of the seven suspensions before the wait or at the
    wait itself, the run goes through with that choice, as if it had come
    at the wait. *)
Theorem early_signal_is_kept (sd : dict) (id dest : pyval) (s : store)
    (n : nat) (c : string) (l : level) (msg : string) (delay : nat)
    (loc : string) :
  sd !! "shipment_id" = Some id ->
  sd !! "destination" = Some dest ->
  clearance (Some c) = (l, msg, delay, loc) ->
  (n ≤ at_issue_detected)%nat ->
  exists w',
    exec (run sd) (start (Valid s) (signal_after n c)) =
      Completed (run_result id (Some c)) w'
    ∧ invocations (journal w') = lifecycle_calls sd id dest loc.
Proof.
  intros Hid Hdest Hc Hn. unfold at_issue_detected in Hn.
  destruct n as [|[|[|[|[|[|[|[|n]]]]]]]]; [..|lia];
    run_through Hid Hdest Hc.
Qed.

(** X12, at an instance. *)
Lemma early_signal_is_kept_witness :
  exists w',
    exec (run Example.payload) (start (Valid ∅) (signal_after 2 "reroute")) =
      Completed (run_result (PStr "SHP-1") (Some "reroute")) w'
    ∧ invocations (journal w') =
        lifecycle_calls Example.payload (PStr "SHP-1") (PStr "Rotterdam")
          "Rerouted and cleared (Alternative Port)".
Proof.
  apply (early_signal_is_kept Example.payload (PStr "SHP-1")
           (PStr "Rotterdam") ∅ 2 "reroute" INFO
           ": Rerouting shipment through alternative port (+$3200)..." 4
           "Rerouted and cleared (Alternative Port)");
    [reflexivity|reflexivity|reflexivity|].
  unfold at_issue_detected. lia.
Defined.

(* ===================================================================== *)
(* What a run leaves in the store                                        *)
(* ===================================================================== *)

Lemma update_shipments_lookup_ne id status loc iss (shipments : store) k :
  k ≠ json_key id ->
  update_shipments id status loc iss shipments !! k = shipments !! k.
Proof.
  intros Hne. unfold update_shipments.
  destruct id as [| | |sid]; try done.
  destruct (shipments !! sid); [|done].
  by rewrite lookup_insert_ne.
Qed.

(** For a string id the six activities come to one assignment. *)
Lemma store_delivered_insert sd sid dest loc (s : store) r :
  store_delivered sd (PStr sid) dest loc s !! sid = Some r ->
  store_delivered sd (PStr sid) dest loc s = <[sid := r]> s.
Proof.
  intros Hr. apply map_eq. intros k.
  destruct (decide (k = sid)) as [->|Hne].
  - by rewrite Hr, lookup_insert_eq.
  - unfold store_delivered, store_cleared, store_at_issue.
    rewrite !update_shipments_lookup_ne by done. cbn [json_key].
    by rewrite !lookup_insert_ne.
Qed.

(** X13.  The net effect of a run that returns, whatever was signalled and
    when: for a payload with a string id and a destination, the store is
    the one the run started on with the record of that one id replaced;
    the record has status "Delivered" and location "Delivered to
    <destination>", still carries the issue details written at "Issue
    Detected", and is the payload in every other field. *)
Theorem completed_run_net_effect (sd : dict) (sid : string) (dest : pyval)
    (s : store) (sched : schedule) (res : dict) (w' : world) :
  sd !! "shipment_id" = Some (PStr sid) ->
  sd !! "destination" = Some dest ->
  exec (run sd) (start (Valid s) sched) = Completed res w' ->
  exists r,
    shipments_json w' = Valid (<[sid := r]> s)
    ∧ r !! "status" = Some (PStr "Delivered")
    ∧ r !! "current_location" = Some (PStr ("Delivered to " +:+ py_str dest))
    ∧ r !! "issue_details" =
        Some (PStr "Documentation discrepancy found - requires manual review")
    ∧ (forall k, k ≠ "status" -> k ≠ "current_location" ->
                 k ≠ "issue_details" -> r !! k = sd !! k).
Proof.
  intros Hid Hdest Hrun.
  destruct (run_completed_inv _ _ _ _ _ _ _ Hid Hdest Hrun)
    as (c & l & msg & n & loc & _ & _ & Hfile & _).
  pose proof (store_delivered_insert sd sid dest loc s _
                (store_delivered_lookup sd sid dest loc s)) as Heq.
  eexists. split; [by rewrite Hfile, Heq|].
  split; [apply update_record_status|].
  split; [by rewrite update_record_location|].
  split; [by rewrite !update_record_issue|].
  intros k ???. by rewrite !update_record_other.
Qed.

(** X13, at an instance. *)
Lemma completed_run_net_effect_witness :
  let o :=
    exec (run Example.payload)
      (start (Valid ∅) (signal_after at_issue_detected "wait")) in
  exists r,
    shipments_json (final o) = Valid (<["SHP-1" := r]> ∅)
    ∧ r !! "status" = Some (PStr "Delivered")
    ∧ r !! "issue_details" =
        Some (PStr "Documentation discrepancy found - requires manual review").
Proof.
  intros o.
  assert (o = Completed (run_result (PStr "SHP-1") (Some "wait")) (final o))
    as Hrun by (vm_compute; reflexivity).
  destruct (completed_run_net_effect Example.payload "SHP-1"
              (PStr "Rotterdam") ∅ _ _ _ eq_refl eq_refl Hrun)
    as (r & Hfile & Hstatus & _ & Hissue & _).
  exists r. split; [exact Hfile|]. split; [exact Hstatus|exact Hissue].
Defined.

Lemma clearance_delay choice l msg n loc :
  clearance choice = (l, msg, n, loc) -> n ∈ [2; 3; 4; 6].
Proof.
  unfold clearance. repeat case_bool_decide; intros [= <- <- <- <-];
    rewrite !elem_of_cons; tauto.
Qed.

(** X14.  A run that returns has slept five times: 3, 3 and 2 seconds up to
    "Issue Detected", then 2, 3, 4 or 6 seconds for the resolution, then
    3 seconds before delivery; between 13 and 17 seconds in all. *)
Theorem completed_run_sleeps (sd : dict) (id dest : pyval) (s : store)
    (sched : schedule) (res : dict) (w' : world) :
  sd !! "shipment_id" = Some id ->
  sd !! "destination" = Some dest ->
  exec (run sd) (start (Valid s) sched) = Completed res w' ->
  exists n,
    n ∈ [2; 3; 4; 6]
    ∧ timers (journal w') = [3; 3; 2; n; 3]
    ∧ (13 ≤ sum_list (timers (journal w')) ≤ 17)%nat.
Proof.
  intros Hid Hdest Hrun.
  destruct (run_completed_inv _ _ _ _ _ _ _ Hid Hdest Hrun)
    as (c & l & msg & n & loc & Hc & _ & _ & _ & Htimers & _).
  exists n. pose proof (clearance_delay _ _ _ _ _ Hc) as Hn.
  split; [done|]. split; [done|]. rewrite Htimers. simpl.
  rewrite !elem_of_cons, elem_of_nil in Hn. lia.
Qed.

(** X14, at an instance. *)
Lemma completed_run_sleeps_witness :
  let o :=
    exec (run Example.payload)
      (start (Valid ∅) (signal_after at_issue_detected "bribe_official")) in
  exists n,
    n ∈ [2; 3; 4; 6]
    ∧ timers (journal (final o)) = [3; 3; 2; n; 3]
    ∧ (13 ≤ sum_list (timers (journal (final o))) ≤ 17)%nat.
Proof.
  intros o.
  assert (o = Completed (run_result (PStr "SHP-1") (Some "bribe_official"))
                (final o)) as Hrun by (vm_compute; reflexivity).
  exact (completed_run_sleeps Example.payload (PStr "SHP-1")
           (PStr "Rotterdam") ∅ _ _ _ eq_refl eq_refl Hrun).
Defined.

(* ===================================================================== *)
(* The forwarding endpoint on valid choices                              *)
(* ===================================================================== *)

